(** * The bulletin ingestion pipeline of [async.py], embedded in Rocq

    The development follows the source file top-down:

    - [Text]: Python [str] values as sequences of code points, with the
      handful of string operations the pipeline uses ([in], [strip],
      one-character [replace], slicing, [int], [str]);
    - [Py]: exceptions and results of calls that may raise;
    - [Calendar], [Net], [Pandas], [PandasOps]: dates, the responses the
      client session gets, cells, numeric columns, frames and the frame
      operations used;
    - [Locator]: [fetch_html] and [get_bulletin_urls];
    - [Extractor]: [download_and_parse];
    - [Normalizer]: [process_dataframe], over a store of frame objects so
      that in-place column assignment and [copy] are visible;
    - [Persister]: [save_to_db], over a session with a pending unit of work;
    - [Orchestrator]: [main], from the table before a run to the table
      after it.

    Modelling boundaries, stated once:
    - the pattern class [\d] and [int] take the decimal digits of Unicode
      14.0, the table of Python 3.11;
    - how [pd.to_numeric] reads a column is pandas' business and enters as
      a parameter ([Pandas.Library]): the development fixes only what the
      pipeline does with the column it gets back. A finite float is held
      as a decimal [mant * 10 ^ exp] that denotes it;
    - a frame row maps a column label to a cell, so a frame has no repeated
      labels, and a label given by [rename] replaces one of the same name;
    - a listing page is the sequence of its anchors and a file body the
      workbook read from it, if any: parsing HTML and the spreadsheet
      format is left to the libraries;
    - the store behind the session decides when a conflict is signalled
      ([Persister.Backend]). *)

From Stdlib Require Import ZArith NArith Lia Ascii String.
From stdpp Require Import gmap list.

Local Open Scope N_scope.

(** ** Python text *)

Module Text.

(** A Python [str] is a sequence of Unicode code points. *)
Abbreviation str := (list N).

(** Source literals are written as Rocq strings, which hold their UTF-8
    bytes; [utf8] decodes them into code points. *)
Fixpoint utf8_dec (bs : list N) (pending : nat) (acc : N) : str :=
  match bs with
  | [] => []
  | b :: bs' =>
      match pending with
      | O =>
          if b <? 128 then b :: utf8_dec bs' 0 0
          else if b <? 224 then utf8_dec bs' 1 (b - 192)
          else if b <? 240 then utf8_dec bs' 2 (b - 224)
          else utf8_dec bs' 3 (b - 240)
      | S p =>
          let acc' := acc * 64 + (b - 128) in
          match p with
          | O => acc' :: utf8_dec bs' 0 0
          | S _ => utf8_dec bs' p acc'
          end
      end
  end.

Definition utf8 (s : string) : str :=
  utf8_dec (List.map N_of_ascii (list_ascii_of_string s)) 0 0.

(** [needle in hay] *)
Fixpoint startswith (p s : str) : bool :=
  match p, s with
  | [], _ => true
  | _ :: _, [] => false
  | a :: p', b :: s' => (a =? b) && startswith p' s'
  end.

Fixpoint contains (needle hay : str) : bool :=
  startswith needle hay ||
  match hay with
  | [] => false
  | _ :: hay' => contains needle hay'
  end.

(** [str.isspace] on one code point. *)
Definition isspace (c : N) : bool :=
  ((9 <=? c) && (c <=? 13)) || ((28 <=? c) && (c <=? 32)) ||
  (c =? 133) || (c =? 160) || (c =? 5760) ||
  ((8192 <=? c) && (c <=? 8202)) || (c =? 8232) || (c =? 8233) ||
  (c =? 8239) || (c =? 8287) || (c =? 12288).

Fixpoint lstrip (s : str) : str :=
  match s with
  | [] => []
  | c :: s' => if isspace c then lstrip s' else s
  end.

Definition rstrip (s : str) : str := rev (lstrip (rev s)).

(** [s.strip()] *)
Definition strip (s : str) : str := rstrip (lstrip s).

(** [s.replace(old, new)] for a one-character [old]. *)
Definition replace_char (old : N) (new : str) (s : str) : str :=
  flat_map (fun c => if c =? old then new else [c]) s.

(** Slice bounds as Python normalises them for a sequence of length
    [len]: [None] is the default, a negative bound counts from the end,
    and everything is clamped to [0 .. len]. *)
Definition clamp (len : Z) (dflt : Z) (b : option Z) : Z :=
  match b with
  | None => dflt
  | Some i =>
      let i' := if (i <? 0)%Z then (i + len)%Z else i in
      Z.max 0 (Z.min len i')
  end.

(** [s[start:stop]] *)
Definition slice (start stop : option Z) (s : str) : str :=
  let len := Z.of_nat (length s) in
  let lo := clamp len 0%Z start in
  let hi := clamp len len stop in
  take (Z.to_nat (hi - lo)) (drop (Z.to_nat lo) s).

(** [Series.str[i]]: the one-character string at position [i], or the
    missing value when [i] is out of range. *)
Definition str_get (i : Z) (s : str) : option str :=
  let len := Z.of_nat (length s) in
  let i' := if (i <? 0)%Z then (i + len)%Z else i in
  if (i' <? 0)%Z || (len <=? i')%Z then None
  else (fun c => [c]) <$> s !! Z.to_nat i'.

(** The decimal digits of Unicode (category Nd): the class [\d] of a
    [str] pattern, and the digits [int] reads. Each entry is the code
    point of a digit zero; the digits one to nine follow it. *)
Definition decimal_zeros : list N :=
  [48; 1632; 1776; 1984; 2406; 2534; 2662; 2790; 2918; 3046; 3174; 3302;
   3430; 3558; 3664; 3792; 3872; 4160; 4240; 6112; 6160; 6470; 6608; 6784;
   6800; 6992; 7088; 7232; 7248; 42528; 43216; 43264; 43472; 43504; 43600;
   44016; 65296; 66720; 68912; 69734; 69872; 69942; 70096; 70384; 70736;
   70864; 71248; 71360; 71472; 71904; 72016; 72784; 73040; 73120; 92768;
   92864; 93008; 120782; 120792; 120802; 120812; 120822; 123200; 123632;
   125264; 130032].

(** The value of a decimal digit; [None] for any other code point. *)
Definition decimal_value (c : N) : option N :=
  (fun zero => c - zero) <$>
  List.find (fun zero => (zero <=? c) && (c <=? zero + 9)) decimal_zeros.

Definition isdecimal (c : N) : bool :=
  match decimal_value c with
  | Some _ => true
  | None => false
  end.

(** [int(s)] for a string of decimal digits. *)
Definition int_of_decimals (s : str) : N :=
  fold_left (fun acc c => acc * 10 + default 0 (decimal_value c)) s 0.

(** The ASCII digits, and the number a string of them denotes. *)
Definition isdigit (c : N) : bool := (48 <=? c) && (c <=? 57).

Definition digit_val (c : N) : N := c - 48.

Definition int_of_digits (s : str) : N :=
  fold_left (fun acc c => acc * 10 + digit_val c) s 0.

Fixpoint digits_of_uint (u : Decimal.uint) : str :=
  match u with
  | Decimal.Nil => []
  | Decimal.D0 u' => 48 :: digits_of_uint u'
  | Decimal.D1 u' => 49 :: digits_of_uint u'
  | Decimal.D2 u' => 50 :: digits_of_uint u'
  | Decimal.D3 u' => 51 :: digits_of_uint u'
  | Decimal.D4 u' => 52 :: digits_of_uint u'
  | Decimal.D5 u' => 53 :: digits_of_uint u'
  | Decimal.D6 u' => 54 :: digits_of_uint u'
  | Decimal.D7 u' => 55 :: digits_of_uint u'
  | Decimal.D8 u' => 56 :: digits_of_uint u'
  | Decimal.D9 u' => 57 :: digits_of_uint u'
  end.

(** [str(n)] for a natural number, and for an integer. *)
Definition str_of_N (n : N) : str := digits_of_uint (N.to_uint n).

Definition str_of_Z (z : Z) : str :=
  if (z <? 0)%Z then 45 :: str_of_N (Z.abs_N z) else str_of_N (Z.abs_N z).

(** The longest prefix of digits, and the rest. *)
Fixpoint span_digits (s : str) : str * str :=
  match s with
  | [] => ([], [])
  | c :: s' =>
      if isdigit c then let '(d, r) := span_digits s' in (c :: d, r)
      else ([], s)
  end.

End Text.

Import Text.

(** ** Exceptions and results *)

Module Py.

Inductive exn : Type :=
  | ValueError
  | IndexError
  | KeyError
  | ClientResponseError (status : N)
  | ClientConnectionError
  | IntegrityError
  | ReferenceError
  | TypeError
  | IntCastingNaNError.

Inductive result (A : Type) : Type :=
  | Ok (a : A)
  | Raise (e : exn).

Arguments Ok {A} a.
Arguments Raise {A} e.

Definition bind {A B} (r : result A) (k : A -> result B) : result B :=
  match r with
  | Ok a => k a
  | Raise e => Raise e
  end.

End Py.

Import Py.

Declare Scope py_scope.
Delimit Scope py_scope with py.
Notation "x <- c ;; k" := (bind c (fun x => k))
  (at level 100, c at next level, right associativity) : py_scope.

Local Open Scope py_scope.

(** ** Calendar dates *)

Module Calendar.

(** A naive [datetime]. *)
Record datetime : Type := Datetime {
  year : N; month : N; day : N;
  hour : N; minute : N; second : N; microsecond : N
}.

Definition is_leap (y : N) : bool :=
  ((y mod 4 =? 0) && negb (y mod 100 =? 0)) || (y mod 400 =? 0).

Definition days_in_month (y m : N) : N :=
  if m =? 2 then (if is_leap y then 29 else 28)
  else if (m =? 4) || (m =? 6) || (m =? 9) || (m =? 11) then 30
  else 31.

(** [datetime(y, m, d)]: raises [ValueError] outside the calendar. *)
Definition datetime_ymd (y m d : N) : result datetime :=
  if (1 <=? y) && (y <=? 9999) && (1 <=? m) && (m <=? 12) &&
     (1 <=? d) && (d <=? days_in_month y m)
  then Ok (Datetime y m d 0 0 0 0)
  else Raise ValueError.

End Calendar.

Import Calendar.

(** ** The network, as the client session sees it *)

Module Net.

(** An anchor with an [href] of a listing page, as
    [soup.find_all("a", href=True)] yields it: its text, its [href], and
    the text of the span [link.find_next("span")] finds, if there is one. *)
Record Anchor : Type := MkAnchor {
  a_text : str;
  a_href : str;
  a_next_span : option str
}.

(** A cell of a sheet read with [header=None], or of a frame: a string,
    an integer, a finite float [mant * 10 ^ exp], an infinite float (a
    sheet holds none, a coerced column may), a truth value, a date, or
    the missing value. *)
Inductive Cell : Type :=
  | CStr (s : str)
  | CInt (z : Z)
  | CFloat (mant exp : Z)
  | CInf (neg : bool)
  | CBool (b : bool)
  | CTime (t : datetime)
  | CNaN.

(** A sheet is its rows, top to bottom; a workbook its sheets in stored
    order. *)
Abbreviation Sheet := (list (list Cell)).

(** A response body under the two readings the pipeline makes of it:
    the anchors the HTML parser finds in it, and the workbook
    [pd.read_excel] finds in it ([None] when reading it raises). *)
Record Body : Type := MkBody {
  as_html : list Anchor;
  as_xls : option (list Sheet)
}.

Record Response : Type := MkResponse {
  status : N;
  body : Body
}.

(** [session.get(url)]: a response, or a connection error. *)
Definition network : Type := str -> result Response.

(** [resp.raise_for_status()]: raises unless [400 > status]. *)
Definition raise_for_status (resp : Response) : result unit :=
  if status resp <? 400 then Ok tt else Raise (ClientResponseError (status resp)).

End Net.

Import Net.

(** ** Bulletin Locator *)

Module Locator.

Definition BASE_URL : str := Eval vm_compute in utf8 "https://spimex.com".
Definition RESULTS_URL : str :=
  Eval vm_compute in utf8 "https://spimex.com/markets/oil_products/trades/results/".
Definition START_YEAR : N := 2023.
Definition LIMIT_FILES : nat := 20.

Definition BULLETIN_TITLE : str :=
  Eval vm_compute in utf8 "Бюллетень по итогам торгов в Секции «Нефтепродукты»".

Arguments BASE_URL : simpl never.
Arguments RESULTS_URL : simpl never.
Arguments START_YEAR : simpl never.
Arguments LIMIT_FILES : simpl never.
Arguments BULLETIN_TITLE : simpl never.

Definition fetch_html (session : network) (url : str) : result (list Anchor) :=
  resp <- session url;;
  _ <- raise_for_status resp;;
  Ok (as_html (body resp)).

(** [re.search(r"(\d{2})\.(\d{2})\.(\d{4})", s)]: the groups of the
    leftmost match. *)
Definition match_date_here (s : str) : option (str * str * str) :=
  match s with
  | d1 :: d2 :: p1 :: m1 :: m2 :: p2 :: y1 :: y2 :: y3 :: y4 :: _ =>
      if isdecimal d1 && isdecimal d2 && (p1 =? 46) &&
         isdecimal m1 && isdecimal m2 && (p2 =? 46) &&
         isdecimal y1 && isdecimal y2 && isdecimal y3 && isdecimal y4
      then Some ([d1; d2], [m1; m2], [y1; y2; y3; y4])
      else None
  | _ => None
  end.

Fixpoint search_date (s : str) : option (str * str * str) :=
  match s with
  | [] => None
  | _ :: s' =>
      match match_date_here s with
      | Some g => Some g
      | None => search_date s'
      end
  end.

Definition entry : Type := str * datetime.

(** How the [for] loop over the links of one page ends: it runs off the
    list or breaks, leaving [data] and [found_new] to the code after it,
    or the function returns from inside it. *)
Inductive scan : Type :=
  | Next (data : list entry) (found_new : bool)
  | Returned (data : list entry).

Fixpoint scan_links (links : list Anchor) (data : list entry)
    (found_new : bool) : result scan :=
  match links with
  | [] => Ok (Next data found_new)
  | link :: rest =>
      if contains BULLETIN_TITLE (a_text link) then
        match a_next_span link with
        | Some span_text =>
            match strip span_text with
            | [] => scan_links rest data found_new
            | _ :: _ =>
                match search_date (strip span_text) with
                | Some (d, m, y) =>
                    trade_date <- datetime_ymd (int_of_decimals y)
                                    (int_of_decimals m) (int_of_decimals d);;
                    if year trade_date <? START_YEAR then Ok (Returned data)
                    else
                      let data' := data ++ [(BASE_URL ++ a_href link, trade_date)] in
                      if (LIMIT_FILES <=? length data')%nat
                      then Ok (Next data' true)
                      else scan_links rest data' true
                | None => scan_links rest data found_new
                end
            end
        | None => scan_links rest data found_new
        end
      else scan_links rest data found_new
  end.

Definition page_url (page_number : N) : str :=
  if 1 <? page_number
  then RESULTS_URL ++ utf8 "?page=page-" ++ str_of_N page_number
  else RESULTS_URL.

(** The [while] loop; [fuel] bounds the number of iterations and [None]
    is the loop still running when it is used up. *)
Fixpoint pages_loop (fuel : nat) (session : network) (page_number : N)
    (data : list entry) : option (result (list entry)) :=
  match fuel with
  | O => None
  | S fuel' =>
      if (length data <? LIMIT_FILES)%nat then
        match fetch_html session (page_url page_number) with
        | Raise e => Some (Raise e)
        | Ok html =>
            match scan_links html data false with
            | Raise e => Some (Raise e)
            | Ok (Returned data') => Some (Ok data')
            | Ok (Next data' found_new) =>
                if negb found_new then Some (Ok data')
                else pages_loop fuel' session (page_number + 1) data'
            end
        end
      else Some (Ok data)
  end.

Definition get_bulletin_urls (session : network) : option (result (list entry)) :=
  pages_loop (S LIMIT_FILES) session 1 [].

End Locator.

(** ** The part of pandas the pipeline uses *)

Module Pandas.

(** A finite number, [mant * 10 ^ exp]. *)
Record dec : Type := Dec { mant : Z; exp : Z }.

(** A [float64]: finite, infinite, or the missing value. *)
Inductive float64 : Type :=
  | Finite (d : dec)
  | Infinite (neg : bool)
  | NaN.

(** A numeric column, by its dtype. *)
Inductive column : Type :=
  | Int64 (values : list Z)
  | UInt64 (values : list Z)
  | Float64 (values : list float64).

(** What the pipeline takes as given from pandas and numpy:
    [pd.to_numeric(series, errors='coerce')] on a column of objects, and
    the integer that numpy's conversion makes of a finite float outside
    the range of [int64], which depends on the platform. *)
Record Library : Type := MkLibrary {
  to_numeric : list Cell -> column;
  out_of_range : dec -> Z
}.

(** [s.zfill(width)] for a string of digits. *)
Definition zfill (width : nat) (s : str) : str :=
  repeat 48 (width - length s) ++ s.

(** [repr] of a float, in positional notation. *)
Definition repr_float (m e : Z) : str :=
  let ds := str_of_N (Z.abs_N m) in
  (if (m <? 0)%Z then [45] else []) ++
  (if (0 <=? e)%Z then ds ++ repeat 48 (Z.to_nat e) ++ [46; 48]
   else
     let k := Z.to_nat (- e) in
     if (k <? length ds)%nat
     then take (length ds - k) ds ++ [46] ++ drop (length ds - k) ds
     else [48; 46] ++ repeat 48 (k - length ds) ++ ds).

(** [str] of a [datetime]. *)
Definition str_of_datetime (t : datetime) : str :=
  zfill 4 (str_of_N (year t)) ++ [45] ++ zfill 2 (str_of_N (month t)) ++ [45] ++
  zfill 2 (str_of_N (day t)) ++ [32] ++
  zfill 2 (str_of_N (hour t)) ++ [58] ++ zfill 2 (str_of_N (minute t)) ++ [58] ++
  zfill 2 (str_of_N (second t)) ++
  (if microsecond t =? 0 then [] else 46 :: zfill 6 (str_of_N (microsecond t))).

(** [str(cell)], which is what [astype(str)] applies to each element. *)
Definition str_of_cell (c : Cell) : str :=
  match c with
  | CStr s => s
  | CInt z => str_of_Z z
  | CFloat m e => repr_float m e
  | CInf false => utf8 "inf"
  | CInf true => utf8 "-inf"
  | CBool true => utf8 "True"
  | CBool false => utf8 "False"
  | CTime t => str_of_datetime t
  | CNaN => utf8 "nan"
  end.

(** Truncation towards zero. *)
Definition trunc (d : dec) : Z :=
  if (0 <=? exp d)%Z then (mant d * 10 ^ exp d)%Z
  else (mant d ÷ 10 ^ (- exp d))%Z.

Definition INT64_MIN : Z := (- 2 ^ 63)%Z.
Definition INT64_MAX : Z := (2 ^ 63 - 1)%Z.

(** A conversion between integer dtypes keeps the low 64 bits. *)
Definition wrap_int64 (z : Z) : Z :=
  ((z - INT64_MIN) mod 2 ^ 64 + INT64_MIN)%Z.

(** A finite float as an [int64]: its truncation, when that fits. *)
Definition int64_of_float (pd : Library) (d : dec) : Z :=
  let z := trunc d in
  if (INT64_MIN <=? z)%Z && (z <=? INT64_MAX)%Z then z else out_of_range pd d.

(** [series.fillna(0)]: only a float column holds missing values. *)
Definition fillna0 (col : column) : column :=
  match col with
  | Float64 values =>
      Float64 (List.map (fun x => match x with NaN => Finite (Dec 0 0) | _ => x end)
                 values)
  | _ => col
  end.

Definition isfinite (x : float64) : bool :=
  match x with
  | Finite _ => true
  | _ => false
  end.

(** [series.astype(int)]: a float column with a value that is not finite
    raises [IntCastingNaNError]. *)
Definition astype_int (pd : Library) (col : column) : result (list Z) :=
  match col with
  | Int64 values => Ok values
  | UInt64 values => Ok (List.map wrap_int64 values)
  | Float64 values =>
      if forallb isfinite values
      then Ok (List.map
                 (fun x => match x with Finite d => int64_of_float pd d | _ => 0%Z end)
                 values)
      else Raise IntCastingNaNError
  end.

(** The elements of a numeric column, as cells. *)
Definition cell_of_float (x : float64) : Cell :=
  match x with
  | Finite d => CFloat (mant d) (exp d)
  | Infinite neg => CInf neg
  | NaN => CNaN
  end.

Definition cells_of (col : column) : list Cell :=
  match col with
  | Int64 values | UInt64 values => List.map CInt values
  | Float64 values => List.map cell_of_float values
  end.

Definition cell_of_ostr (o : option str) : Cell :=
  match o with
  | Some s => CStr s
  | None => CNaN
  end.

(** A row maps a column label to its cell; a label the map does not hold
    reads as the missing value. *)
Abbreviation Row := (gmap str Cell).

Definition cell (r : Row) (c : str) : Cell := default CNaN (r !! c).

Record Frame : Type := MkFrame {
  columns : list str;
  rows : list Row
}.

(** Frames are objects: a variable holds a reference into the store. *)
Abbreviation loc := nat.
Abbreviation Store := (list Frame).

Definition St (A : Type) : Type := Store -> result A * Store.

Definition ret {A} (a : A) : St A := fun h => (Ok a, h).

Definition raise {A} (e : exn) : St A := fun h => (Raise e, h).

(** A call that touches no frame. *)
Definition lift {A} (r : result A) : St A := fun h => (r, h).

Definition sbind {A B} (m : St A) (k : A -> St B) : St B :=
  fun h =>
    match m h with
    | (Ok a, h') => k a h'
    | (Raise e, h') => (Raise e, h')
    end.

Definition deref (l : loc) : St Frame :=
  fun h =>
    match h !! l with
    | Some f => (Ok f, h)
    | None => (Raise ReferenceError, h)
    end.

Definition alloc (f : Frame) : St loc :=
  fun h => (Ok (length h), h ++ [f]).

Definition assign (l : loc) (f : Frame) : St unit :=
  fun h => (Ok tt, <[l := f]> h).

End Pandas.

Import Pandas.

Declare Scope st_scope.
Delimit Scope st_scope with st.
Notation "x <- c ;; k" := (sbind c (fun x => k))
  (at level 100, c at next level, right associativity) : st_scope.
Notation "c ;;; k" := (sbind c (fun _ => k))
  (at level 100, k at level 200, right associativity) : st_scope.

Module PandasOps.

Local Open Scope st_scope.

(** [df.copy()] *)
Definition df_copy (df : loc) : St loc :=
  f <- deref df;; alloc f.

(** [df[c]]: the column as a sequence of cells; [KeyError] when the
    frame has no such label. *)
Definition getitem (df : loc) (c : str) : St (list Cell) :=
  f <- deref df;;
  if bool_decide (c ∈ columns f) then ret (List.map (fun r => cell r c) (rows f))
  else raise KeyError.

(** [df[c] = values]: in place, on the object [df] refers to. An
    existing column is overwritten, a new one is appended. *)
Definition frame_setitem (c : str) (values : list Cell) (f : Frame) : Frame :=
  MkFrame (if bool_decide (c ∈ columns f) then columns f else columns f ++ [c])
          (zip_with (fun r v => <[c := v]> r) (rows f) values).

Definition setitem (df : loc) (c : str) (values : list Cell) : St unit :=
  f <- deref df;;
  assign df (frame_setitem c values f).

(** [df[c] = value] for a scalar, broadcast to every row. *)
Definition setitem_scalar (df : loc) (c : str) (value : Cell) : St unit :=
  f <- deref df;;
  setitem df c (repeat value (length (rows f))).

(** [df[mask]]: a new frame with the rows the mask selects. *)
Fixpoint select (mask : list bool) (rs : list Row) : list Row :=
  match mask, rs with
  | b :: mask', r :: rs' => if b then r :: select mask' rs' else select mask' rs'
  | _, _ => []
  end.

Definition frame_filter (mask : list bool) (f : Frame) : Frame :=
  MkFrame (columns f) (select mask (rows f)).

Definition filter_rows (df : loc) (mask : list bool) : St loc :=
  f <- deref df;;
  alloc (frame_filter mask f).

(** [df.rename(columns=mapping)]: a new frame; a pair whose old label
    the frame does not have is ignored. *)
Definition rename_label (mapping : list (str * str)) (c : str) : str :=
  default c (snd <$> List.find (fun p => bool_decide (fst p = c)) mapping).

Definition rename_row (mapping : list (str * str)) (r : Row) : Row :=
  fold_left (fun acc p => <[snd p := cell r (fst p)]> (delete (fst p) acc)) mapping r.

Definition frame_rename (mapping : list (str * str)) (f : Frame) : Frame :=
  let present := List.filter (fun p => bool_decide (fst p ∈ columns f)) mapping in
  MkFrame (List.map (rename_label present) (columns f))
          (List.map (rename_row present) (rows f)).

Definition rename (df : loc) (mapping : list (str * str)) : St loc :=
  f <- deref df;;
  alloc (frame_rename mapping f).

(** [df[[c1, .., cn]]]: a new frame with these columns; [KeyError] when
    one is missing. *)
Definition project_row (labels : list str) (r : Row) : Row :=
  list_to_map (List.map (fun c => (c, cell r c)) labels).

Definition frame_project (labels : list str) (f : Frame) : Frame :=
  MkFrame labels (List.map (project_row labels) (rows f)).

Definition project (df : loc) (labels : list str) : St loc :=
  f <- deref df;;
  if forallb (fun c => bool_decide (c ∈ columns f)) labels
  then alloc (frame_project labels f)
  else raise KeyError.

End PandasOps.

Import PandasOps.

(** ** Spreadsheet Extractor *)

Module Extractor.

Definition MARKER : str :=
  Eval vm_compute in utf8 "Единица измерения: Метрическая тонна".

Arguments MARKER : simpl never.

(** [any(isinstance(cell, str) and MARKER in cell for cell in row)] *)
Definition has_marker (row : list Cell) : bool :=
  existsb (fun c => match c with CStr s => contains MARKER s | _ => false end) row.

(** The column labels: [astype(str)], newlines to spaces, [strip]. *)
Definition label_of_cell (c : Cell) : str :=
  strip (replace_char 10 [32] (str_of_cell c)).

(** The rows below a marker row: the first is the header, the others
    the body; [iloc[0]] raises [IndexError] when there is none. *)
Definition table_below (below : Sheet) : result Frame :=
  match below with
  | [] => Raise IndexError
  | header :: body_rows =>
      let labels := List.map label_of_cell header in
      Ok (MkFrame labels
            (List.map (fun cells => list_to_map (zip labels cells)) body_rows))
  end.

(** The [for i, row in data.iterrows()] loop of one sheet; [None] when
    it ends without having returned. *)
Fixpoint scan_rows (sheet : Sheet) : option (result Frame) :=
  match sheet with
  | [] => None
  | row :: below =>
      if has_marker row then Some (table_below below) else scan_rows below
  end.

Fixpoint scan_sheets (sheets : list Sheet) : result (option Frame) :=
  match sheets with
  | [] => Ok None
  | sheet :: others =>
      match scan_rows sheet with
      | Some r => df_clean <- r;; Ok (Some df_clean)
      | None => scan_sheets others
      end
  end.

Definition download_and_parse (session : network) (url : str)
    : result (option Frame) :=
  resp <- session url;;
  match as_xls (body resp) with
  | None => Ok None
  | Some df_dict => scan_sheets df_dict
  end.

End Extractor.

(** ** Row Normalizer *)

Module Normalizer.

Local Open Scope st_scope.

Definition COL_CODE : str := Eval vm_compute in utf8 "Код Инструмента".
Definition COL_NAME : str := Eval vm_compute in utf8 "Наименование Инструмента".
Definition COL_BASIS : str := Eval vm_compute in utf8 "Базис поставки".
Definition COL_VOLUME : str :=
  Eval vm_compute in utf8 "Объем Договоров в единицах измерения".
Definition COL_TOTAL : str := Eval vm_compute in utf8 "Обьем Договоров, руб.".
Definition COL_COUNT : str := Eval vm_compute in utf8 "Количество Договоров, шт.".

Definition expected_columns : list str :=
  [COL_CODE; COL_NAME; COL_BASIS; COL_VOLUME; COL_TOTAL; COL_COUNT].

Definition SUMMARY : str := Eval vm_compute in utf8 "Итого".

Definition L_count : str := Eval vm_compute in utf8 "count".
Definition L_volume : str := Eval vm_compute in utf8 "volume".
Definition L_total : str := Eval vm_compute in utf8 "total".
Definition L_exchange_product_id : str := Eval vm_compute in utf8 "exchange_product_id".
Definition L_exchange_product_name : str :=
  Eval vm_compute in utf8 "exchange_product_name".
Definition L_delivery_basis_name : str := Eval vm_compute in utf8 "delivery_basis_name".
Definition L_oil_id : str := Eval vm_compute in utf8 "oil_id".
Definition L_delivery_basis_id : str := Eval vm_compute in utf8 "delivery_basis_id".
Definition L_delivery_type_id : str := Eval vm_compute in utf8 "delivery_type_id".
Definition L_date : str := Eval vm_compute in utf8 "date".
Definition L_created_on : str := Eval vm_compute in utf8 "created_on".
Definition L_updated_on : str := Eval vm_compute in utf8 "updated_on".

Definition output_columns : list str :=
  [L_exchange_product_id; L_exchange_product_name; L_oil_id; L_delivery_basis_id;
   L_delivery_basis_name; L_delivery_type_id; L_volume; L_total; L_count; L_date;
   L_created_on; L_updated_on].

Arguments COL_CODE : simpl never.
Arguments COL_NAME : simpl never.
Arguments COL_BASIS : simpl never.
Arguments COL_VOLUME : simpl never.
Arguments COL_TOTAL : simpl never.
Arguments COL_COUNT : simpl never.
Arguments SUMMARY : simpl never.
Arguments L_count : simpl never.
Arguments L_volume : simpl never.
Arguments L_total : simpl never.
Arguments L_exchange_product_id : simpl never.
Arguments L_exchange_product_name : simpl never.
Arguments L_delivery_basis_name : simpl never.
Arguments L_oil_id : simpl never.
Arguments L_delivery_basis_id : simpl never.
Arguments L_delivery_type_id : simpl never.
Arguments L_date : simpl never.
Arguments L_created_on : simpl never.
Arguments L_updated_on : simpl never.

(** [.astype(str).str.replace(',', '').str.strip()] on one cell. *)
Definition clean (c : Cell) : str :=
  strip (replace_char 44 [] (str_of_cell c)).

(** [series > 0] on one cell; a missing value compares false. *)
Definition gt0 (c : Cell) : bool :=
  match c with
  | CInt z => (0 <? z)%Z
  | CFloat m _ => (0 <? m)%Z
  | CInf neg => negb neg
  | _ => false
  end.

(** [series.notna()] on one cell. *)
Definition notna (c : Cell) : bool :=
  match c with
  | CNaN => false
  | _ => true
  end.

Section WithLibrary.

Variable pd : Library.

Definition process_dataframe (df : loc) (trade_date now : datetime)
    : St (option loc) :=
  f <- deref df;;
  if existsb (fun col => negb (bool_decide (col ∈ columns f))) expected_columns
  then ret None
  else
    df <- df_copy df;;

    s <- getitem df COL_COUNT;;
    setitem df COL_COUNT (List.map (fun c => CStr (clean c)) s);;;
    s <- getitem df COL_VOLUME;;
    setitem df COL_VOLUME (List.map (fun c => CStr (clean c)) s);;;
    s <- getitem df COL_TOTAL;;
    setitem df COL_TOTAL (List.map (fun c => CStr (clean c)) s);;;

    s <- getitem df COL_COUNT;;
    counts <- lift (astype_int pd (fillna0 (to_numeric pd s)));;
    setitem df L_count (List.map CInt counts);;;
    s <- getitem df COL_VOLUME;;
    setitem df L_volume (cells_of (to_numeric pd s));;;
    s <- getitem df COL_TOTAL;;
    setitem df L_total (cells_of (to_numeric pd s));;;

    s <- getitem df L_count;;
    df <- filter_rows df (List.map gt0 s);;
    s <- getitem df L_volume;;
    df <- filter_rows df (List.map notna s);;
    s <- getitem df L_total;;
    df <- filter_rows df (List.map notna s);;
    s <- getitem df COL_CODE;;
    df <- filter_rows df
            (List.map (fun c => negb (contains SUMMARY (str_of_cell c))) s);;

    df <- rename df [(COL_CODE, L_exchange_product_id);
                     (COL_NAME, L_exchange_product_name);
                     (COL_BASIS, L_delivery_basis_name)];;

    s <- getitem df L_exchange_product_id;;
    setitem df L_oil_id
      (List.map (fun c => CStr (slice None (Some 4%Z) (str_of_cell c))) s);;;
    s <- getitem df L_exchange_product_id;;
    setitem df L_delivery_basis_id
      (List.map (fun c => CStr (slice (Some 4%Z) (Some 7%Z) (str_of_cell c))) s);;;
    s <- getitem df L_exchange_product_id;;
    setitem df L_delivery_type_id
      (List.map (fun c => cell_of_ostr (str_get (-1) (str_of_cell c))) s);;;
    setitem_scalar df L_date (CTime trade_date);;;

    setitem_scalar df L_created_on (CTime now);;;
    setitem_scalar df L_updated_on (CTime now);;;

    out <- project df output_columns;;
    ret (Some out).

End WithLibrary.

End Normalizer.

(** ** Persister *)

Module Persister.

(** The attributes the class [SpimexTradingResult] declares: its
    thirteen mapped columns and its table name. *)
Definition mapped_columns : list str :=
  Eval vm_compute in
    List.map utf8
      ["id"; "exchange_product_id"; "exchange_product_name"; "oil_id";
       "delivery_basis_id"; "delivery_basis_name"; "delivery_type_id";
       "volume"; "total"; "count"; "date"; "created_on"; "updated_on"]%string.

Definition class_attributes : list str :=
  Eval vm_compute in utf8 "__tablename__" :: mapped_columns.

Arguments mapped_columns : simpl never.
Arguments class_attributes : simpl never.

(** [row.to_dict()]: the cells of a row under the labels of the frame. *)
Definition to_dict (labels : list str) (row : Row) : list (str * Cell) :=
  List.map (fun c => (c, cell row c)) labels.

(** The constructor of [SpimexTradingResult], called with the items of
    the dict as keywords: the declarative constructor sets every keyword
    as an attribute of the new object, and raises [TypeError] for a
    keyword that is no attribute of the class. *)
Definition SpimexTradingResult (kwargs : list (str * Cell)) : result Row :=
  if forallb (fun kv : str * Cell => bool_decide (kv.1 ∈ class_attributes)) kwargs
  then Ok (list_to_map kwargs)
  else Raise TypeError.

(** What the session is asked to do, in order. *)
Inductive Event : Type :=
  | EvAdd (record : Row) (conflict : bool)
  | EvRollback
  | EvCommit (conflict : bool).

(** A session: the pending unit of work, the table as committed, and the
    calls made so far. *)
Record Session : Type := MkSession {
  pending : list Row;
  committed : list Row;
  trace : list Event
}.

(** The store decides when staging a record, or flushing at commit,
    signals an integrity conflict. *)
Record Backend : Type := MkBackend {
  add_conflicts : Row -> Session -> bool;
  flush_conflicts : Session -> bool
}.

Section WithBackend.

Variable backend : Backend.

Definition session_add (record : Row) (s : Session) : result unit * Session :=
  if add_conflicts backend record s
  then (Raise IntegrityError,
        MkSession (pending s) (committed s) (trace s ++ [EvAdd record true]))
  else (Ok tt,
        MkSession (pending s ++ [record]) (committed s)
                  (trace s ++ [EvAdd record false])).

Definition session_rollback (s : Session) : result unit * Session :=
  (Ok tt, MkSession [] (committed s) (trace s ++ [EvRollback])).

Definition session_commit (s : Session) : result unit * Session :=
  if flush_conflicts backend s
  then (Raise IntegrityError,
        MkSession (pending s) (committed s) (trace s ++ [EvCommit true]))
  else (Ok tt,
        MkSession [] (committed s ++ pending s) (trace s ++ [EvCommit false])).

(** The [for _, row in df.iterrows()] loop: the record is built outside
    the [try], so an exception of the constructor leaves the loop. *)
Fixpoint add_rows (labels : list str) (rows : list Row) (s : Session)
    : result unit * Session :=
  match rows with
  | [] => (Ok tt, s)
  | row :: others =>
      match SpimexTradingResult (to_dict labels row) with
      | Raise e => (Raise e, s)
      | Ok record =>
          match session_add record s with
          | (Ok _, s') => add_rows labels others s'
          | (Raise IntegrityError, s') =>
              match session_rollback s' with
              | (Ok _, s'') => add_rows labels others s''
              | (Raise e, s'') => (Raise e, s'')
              end
          | (Raise e, s') => (Raise e, s')
          end
      end
  end.

Definition save_to_db (df : Frame) (table : list Row) : result unit * Session :=
  let session := MkSession [] table [] in
  match add_rows (columns df) (rows df) session with
  | (Ok _, s) => session_commit s
  | (Raise e, s) => (Raise e, s)
  end.

End WithBackend.

End Persister.

Import Locator Extractor Normalizer Persister.

(** ** Orchestrator *)

Module Orchestrator.

(** [asyncio.gather] on the tasks: the results in task order, or an exception
    when a task raised. When several tasks raise, which exception is
    reported depends on the order in which they finish; here it is the
    one of the first such task in task order. *)
Fixpoint gather {A : Type} (tasks : list (result A)) : result (list A) :=
  match tasks with
  | [] => Ok []
  | task :: others =>
      match task with
      | Raise e => Raise e
      | Ok a =>
          match gather others with
          | Ok results => Ok (a :: results)
          | Raise e => Raise e
          end
      end
  end.

(** The body of the [for (_, date), df in zip(urls, results)] loop, on
    the frames in memory and the table of the store; [now] is what the
    clock reads during the call of [process_dataframe]. *)
Definition persist_file (pd : Library) (backend : Backend) (now date : datetime)
    (df : option Frame) (frames : Store) (table : list Row)
    : result unit * (Store * list Row) :=
  match df with
  | None => (Ok tt, (frames, table))
  | Some f =>
      match process_dataframe pd (length frames) date now (frames ++ [f]) with
      | (Raise e, frames') => (Raise e, (frames', table))
      | (Ok None, frames') => (Ok tt, (frames', table))
      | (Ok (Some processed), frames') =>
          match frames' !! processed with
          | None => (Raise ReferenceError, (frames', table))
          | Some batch_frame =>
              let '(r, s) := save_to_db backend batch_frame table in
              (r, (frames', committed s))
          end
      end
  end.

Fixpoint persist_files (pd : Library) (backend : Backend) (clock : nat -> datetime)
    (i : nat) (files : list (entry * option Frame)) (frames : Store)
    (table : list Row) : result unit * (Store * list Row) :=
  match files with
  | [] => (Ok tt, (frames, table))
  | ((_, date), df) :: others =>
      match persist_file pd backend (clock i) date df frames table with
      | (Ok _, (frames', table')) =>
          persist_files pd backend clock (S i) others frames' table'
      | (Raise e, w) => (Raise e, w)
      end
  end.

(** [main], from the table before the run to the outcome and the table
    after it; [clock i] is the time during the call for the [i]-th file.
    [None] is [get_bulletin_urls] still running. *)
Definition main (pd : Library) (backend : Backend) (session : network)
    (clock : nat -> datetime) (table : list Row)
    : option (result unit * list Row) :=
  match get_bulletin_urls session with
  | None => None
  | Some (Raise e) => Some (Raise e, table)
  | Some (Ok urls) =>
      let tasks := List.map (fun u : entry => download_and_parse session u.1) urls in
      match gather tasks with
      | Raise e => Some (Raise e, table)
      | Ok results =>
          let '(r, (_, table')) :=
            persist_files pd backend clock 0 (zip urls results) [] table in
          Some (r, table')
      end
  end.

End Orchestrator.

Import Orchestrator.

(** ** Concrete inputs used below *)

Module Samples.

(** *** A reader of numbers

    One [Library] for the runs below. It reads a decimal literal (sign,
    digits, fraction, exponent) and the spelled-out infinities, and makes
    the missing value of anything else and of a literal beyond the range
    of [float64]; a finite number is kept as the decimal it is written
    as. A column of integers is [int64], or [uint64] when none is negative
    and one is too large for [int64]; any other column is [float64]. A
    float beyond the range of [int64] becomes [INT64_MIN], as on x86-64. *)

Definition split_sign (s : str) : bool * str :=
  match s with
  | 45 :: r => (true, r)
  | 43 :: r => (false, r)
  | _ => (false, s)
  end.

Definition signed (neg : bool) (n : N) : Z :=
  if neg then (- Z.of_N n)%Z else Z.of_N n.

Inductive reading : Type :=
  | RInt (z : Z)
  | RFloat (x : float64).

(** At least [2 ^ 1024] in absolute value. *)
Definition overflows (d : dec) : bool :=
  let m := Z.abs (mant d) in
  if (m =? 0)%Z then false
  else if (400 <? exp d)%Z then true
  else if (0 <=? exp d)%Z then (2 ^ 1024 <=? m * 10 ^ exp d)%Z
  else if (Z.log2 m <? - exp d)%Z then false
  else (2 ^ 1024 * 10 ^ (- exp d) <=? m)%Z.

Definition float_of (d : dec) : float64 :=
  if overflows d then NaN else Finite d.

Definition read_decimal (s : str) : option reading :=
  let '(neg, r) := split_sign s in
  let '(ip, r1) := span_digits r in
  let '(dot, fp, r2) :=
    match r1 with
    | 46 :: t => let '(fp, r2) := span_digits t in (true, fp, r2)
    | _ => (false, [], r1)
    end in
  match ip ++ fp with
  | [] => None
  | _ :: _ =>
      let m := signed neg (int_of_digits (ip ++ fp)) in
      let shift := Z.of_nat (length fp) in
      match r2 with
      | [] => Some (if dot then RFloat (float_of (Dec m (- shift))) else RInt m)
      | c :: t =>
          if (c =? 101) || (c =? 69) then
            let '(eneg, t1) := split_sign t in
            let '(ed, t2) := span_digits t1 in
            match ed, t2 with
            | _ :: _, [] =>
                Some (RFloat (float_of (Dec m (signed eneg (int_of_digits ed) - shift))))
            | _, _ => None
            end
          else None
      end
  end.

Definition lower (c : N) : N :=
  if (65 <=? c) && (c <=? 90) then c + 32 else c.

Definition read_infinity (s : str) : option float64 :=
  let '(neg, r) := split_sign s in
  let word := List.map lower r in
  if bool_decide (word = utf8 "inf"%string) || bool_decide (word = utf8 "infinity"%string)
  then Some (Infinite neg)
  else None.

Definition read_text (s : str) : reading :=
  match read_decimal s with
  | Some r => r
  | None => RFloat (default NaN (read_infinity s))
  end.

Definition read_cell (c : Cell) : reading :=
  match c with
  | CStr s => read_text s
  | CInt z => RInt z
  | CFloat m e => RFloat (Finite (Dec m e))
  | CInf neg => RFloat (Infinite neg)
  | CBool b => RInt (if b then 1 else 0)%Z
  | CTime _ | CNaN => RFloat NaN
  end.

Definition is_int (lo hi : Z) (r : reading) : bool :=
  match r with
  | RInt z => (lo <=? z)%Z && (z <=? hi)%Z
  | RFloat _ => false
  end.

Definition int_of (r : reading) : Z :=
  match r with
  | RInt z => z
  | RFloat _ => 0%Z
  end.

Definition float_of_reading (r : reading) : float64 :=
  match r with
  | RInt z => float_of (Dec z 0)
  | RFloat x => x
  end.

Definition column_of_readings (rs : list reading) : column :=
  if forallb (is_int INT64_MIN INT64_MAX) rs then Int64 (List.map int_of rs)
  else if forallb (is_int 0 (2 ^ 64 - 1))%Z rs then UInt64 (List.map int_of rs)
  else Float64 (List.map float_of_reading rs).

Definition pandas : Library :=
  MkLibrary (fun cells => column_of_readings (List.map read_cell cells))
            (fun _ => INT64_MIN).

Local Open Scope string_scope.

Definition text (s : string) : Cell := CStr (utf8 s).

Definition bulletin_link (date_text : string) : Anchor :=
  MkAnchor BULLETIN_TITLE (utf8 "/upload/oil.xls") (Some (utf8 date_text)).

Definition ok_page (links : list Anchor) : result Response :=
  Ok (MkResponse 200 (MkBody links None)).

(** Page 1 lists three bulletins of 2024, every further page is empty. *)
Definition three_links_session : network :=
  fun url =>
    if bool_decide (url = RESULTS_URL)
    then ok_page [bulletin_link "01.05.2024"; bulletin_link "24.04.2024";
                  bulletin_link "17.04.2024"]
    else ok_page [].

(** Page 1 lists a bulletin of 2024 and then one dated 31.02.2022. *)
Definition bad_date_session : network :=
  fun _ => ok_page [bulletin_link "01.05.2024"; bulletin_link "31.02.2022";
                    bulletin_link "17.04.2024"].

(** Every URL answers 404 with a body that is no workbook. *)
Definition not_found_session : network :=
  fun _ => Ok (MkResponse 404 (MkBody [] None)).

(** A workbook whose only sheet has no marker row. *)
Definition plain_sheet : Sheet :=
  [[text "Секция"; CNaN]; [CInt 1; CFloat 25 (-1)]].

Definition plain_session : network :=
  fun _ => Ok (MkResponse 200 (MkBody [] (Some [plain_sheet]))).

(** *** Grids *)

Definition grid_row (code name basis volume total count : Cell) : Row :=
  list_to_map [(COL_CODE, code); (COL_NAME, name); (COL_BASIS, basis);
               (COL_VOLUME, volume); (COL_TOTAL, total); (COL_COUNT, count)].

Definition a100_row : Row :=
  grid_row (text "A100") (text "Бензин") (text "ст. Тест")
           (text "60") (text "1,200,000") (CInt 3).

(** One trade of instrument "A100", one blank line and one summary line. *)
Definition a100_frame : Frame :=
  MkFrame expected_columns
    [a100_row;
     grid_row CNaN CNaN CNaN CNaN CNaN CNaN;
     grid_row (text "Итого:") CNaN CNaN (text "60") (text "1,200,000") (CInt 3)].

Definition negative_volume_row : Row :=
  grid_row (text "A100ANK060F") (text "Бензин") (text "ст. Тест")
           (text "-5") (text "100") (text "1").

(** One trade whose volume cell reads "-5". *)
Definition negative_volume_frame : Frame :=
  MkFrame expected_columns [negative_volume_row].

(** One trade whose count cell reads "Infinity". *)
Definition infinite_count_frame : Frame :=
  MkFrame expected_columns
    [grid_row (text "A100ANK060F") (text "Бензин") (text "ст. Тест")
              (text "60") (text "100") (text "Infinity")].

(** One trade whose count cell reads "n/a". *)
Definition unreadable_count_frame : Frame :=
  MkFrame expected_columns
    [grid_row (text "A100ANK060F") (text "Бензин") (text "ст. Тест")
              (text "60") (text "100") (text "n/a")].

(** A grid without the contract count column. *)
Definition five_column_frame : Frame :=
  MkFrame [COL_CODE; COL_NAME; COL_BASIS; COL_VOLUME; COL_TOTAL]
    [list_to_map [(COL_CODE, text "A100")]].

Definition may_day : datetime := Datetime 2024 5 1 0 0 0 0.
Definition clock : datetime := Datetime 2024 5 2 9 30 0 125.

(** *** Records and stores *)

(** A record of the batch, with the product id given. *)
Definition record (code : string) : Row :=
  list_to_map
    [(L_exchange_product_id, text code); (L_exchange_product_name, text "Бензин");
     (L_oil_id, CStr (take 4 (utf8 code)));
     (L_delivery_basis_id, CStr (take 3 (drop 4 (utf8 code))));
     (L_delivery_basis_name, text "ст. Тест");
     (L_delivery_type_id, CStr (drop 10 (utf8 code)));
     (L_volume, CInt 60); (L_total, CInt 1200000); (L_count, CInt 3);
     (L_date, CTime may_day); (L_created_on, CTime clock);
     (L_updated_on, CTime clock)].

(** The batch A, B, A, C: the third record repeats the product id of the
    first. *)
Definition repeated_id_frame : Frame :=
  MkFrame output_columns
    [record "A100ANK060F"; record "A592UFM060F"; record "A100ANK060F";
     record "A10KZLY060W"].

Definition same_id (a b : Row) : bool :=
  bool_decide (str_of_cell (cell a L_exchange_product_id)
               = str_of_cell (cell b L_exchange_product_id)).

Fixpoint has_repeat (records : list Row) : bool :=
  match records with
  | [] => false
  | r :: others => existsb (same_id r) others || has_repeat others
  end.

(** A store that refuses, at staging, a record whose product id is
    already in the table or in the pending unit of work. *)
Definition unique_id_backend : Backend :=
  MkBackend (fun record s => existsb (same_id record) (committed s ++ pending s))
            (fun _ => false).

(** A store with the same constraint that, like the session of the
    source, checks nothing at staging: the repeated product id is found
    when the pending unit of work is flushed by the commit. *)
Definition unique_at_flush_backend : Backend :=
  MkBackend (fun _ _ => false)
            (fun s => has_repeat (committed s ++ pending s)).

End Samples.

(** ** Further inputs *)

Module Cases.

Import Samples.

Local Open Scope string_scope.

(** Page 1 lists a bulletin of 2024, one of 2022 and one of 2024 again;
    every further page repeats it. *)
Definition cutoff_session : network :=
  fun _ => ok_page [bulletin_link "01.05.2024"; bulletin_link "15.02.2022";
                    bulletin_link "17.04.2024"].

(** Page 1 lists three bulletins, every further page answers 500. *)
Definition failing_page_session : network :=
  fun url =>
    if bool_decide (url = RESULTS_URL)
    then ok_page [bulletin_link "01.05.2024"; bulletin_link "24.04.2024";
                  bulletin_link "17.04.2024"]
    else Ok (MkResponse 500 (MkBody [] None)).

(** Every page lists the same twenty-five bulletins. *)
Definition crowded_session : network :=
  fun _ => ok_page (repeat (bulletin_link "01.05.2024") 25).

(** Page 1 lists one bulletin, dated 01.05.2024 in Arabic-Indic digits;
    every further page is empty. *)
Definition arabic_indic_session : network :=
  fun url =>
    if bool_decide (url = RESULTS_URL)
    then ok_page [bulletin_link "٠١.٠٥.٢٠٢٤"]
    else ok_page [].

(** A sheet with a title row, the marker row, a header and two trades. *)
Definition marker_text : Cell := text "Единица измерения: Метрическая тонна".

Definition bulletin_header : list Cell :=
  [CStr (utf8 "Код" ++ [10%N] ++ utf8 "Инструмента");
   text " Наименование Инструмента "; text "Базис поставки"].

Definition bulletin_body : Sheet :=
  [[text "A100ANK060F"; text "Бензин"; text "ст. Тест"];
   [text "A592UFM060F"; text "Дизель"; CNaN]].

Definition bulletin_sheet : Sheet :=
  [text "Бюллетень"; CNaN; CNaN] :: [marker_text; CNaN; CNaN]
  :: bulletin_header :: bulletin_body.

(** The table under its marker row. *)
Definition bulletin_frame : Frame :=
  MkFrame (List.map label_of_cell bulletin_header)
    (List.map
       (fun cells => list_to_map (zip (List.map label_of_cell bulletin_header) cells))
       bulletin_body).

Definition bulletin_session : network :=
  fun _ => Ok (MkResponse 200 (MkBody [] (Some [plain_sheet; bulletin_sheet; plain_sheet]))).

(** A sheet that ends with the marker row. *)
Definition truncated_session : network :=
  fun _ => Ok (MkResponse 200
                 (MkBody [] (Some [[[text "Бюллетень"]; [marker_text]]; bulletin_sheet]))).

(** [a100_frame] with the first comma of its total taken out. *)
Definition a100_frame_one_comma : Frame :=
  MkFrame expected_columns
    (<[COL_TOTAL := CStr (utf8 "1" ++ utf8 "200,000")]> a100_row
     :: drop 1 (rows a100_frame)).

(** Three trades with numbers at the edges of the dtypes: a count of
    2 ^ 63, a volume "inf" and a volume "1e400". *)
Definition edge_frame : Frame :=
  MkFrame expected_columns
    [grid_row (text "A100ANK060F") (text "Бензин") (text "ст. Тест")
              (text "60") (text "100") (text "9223372036854775808");
     grid_row (text "A592UFM060F") (text "Дизель") (text "ст. Тест")
              (text "inf") (text "100") (text "1");
     grid_row (text "A10KZLY060W") (text "Мазут") (text "ст. Тест")
              (text "1e400") (text "100") (text "1")].

(** A store that never signals a conflict, and one whose commits all
    fail. *)
Definition quiet_backend : Backend :=
  MkBackend (fun _ _ => false) (fun _ => false).

Definition refusing_backend : Backend :=
  MkBackend (fun _ _ => false) (fun _ => true).

(** A bulletin whose table has the six expected columns and one trade. *)
Definition trade_header : list Cell := List.map CStr expected_columns.

Definition trade_body : Sheet :=
  [[text "A100ANK060F"; text "Бензин"; text "ст. Тест";
    text "60"; text "1,200,000"; CInt 3]].

Definition trade_sheet : Sheet :=
  [marker_text] :: trade_header :: trade_body.

Definition trade_frame : Frame :=
  MkFrame (List.map label_of_cell trade_header)
    (List.map
       (fun cells => list_to_map (zip (List.map label_of_cell trade_header) cells))
       trade_body).

Definition file_link (href date_text : string) : Anchor :=
  MkAnchor BULLETIN_TITLE (utf8 href) (Some (utf8 date_text)).

Definition two_files_page : list Anchor :=
  [file_link "/a.xls" "01.05.2024"; file_link "/b.xls" "24.04.2024"].

Definition two_files_urls : list entry :=
  [((BASE_URL ++ utf8 "/a.xls")%list, Datetime 2024 5 1 0 0 0 0);
   ((BASE_URL ++ utf8 "/b.xls")%list, Datetime 2024 4 24 0 0 0 0)].

(** Page 1 lists two files; the first is a bulletin, the second is no
    workbook; every other URL is an empty page. *)
Definition pipeline_session : network :=
  fun url =>
    if bool_decide (url = RESULTS_URL) then ok_page two_files_page
    else if bool_decide (url = (BASE_URL ++ utf8 "/a.xls")%list)
         then Ok (MkResponse 200 (MkBody [] (Some [trade_sheet])))
         else ok_page [].

(** The same, but the connection for the second file fails. *)
Definition broken_file_session : network :=
  fun url =>
    if bool_decide (url = (BASE_URL ++ utf8 "/b.xls")%list) then Raise ClientConnectionError
    else pipeline_session url.

Definition every_hour (i : nat) : datetime :=
  Datetime 2024 5 2 (N.of_nat i) 0 0 0.

End Cases.

(** * Vocabulary of the properties *)

Local Open Scope nat_scope.

(** [needle] occurs in [hay]. *)
Definition substring (needle hay : str) : Prop :=
  exists pre post, hay = pre ++ needle ++ post.

(** An entry dated in [START_YEAR] or later. *)
Definition recent (e : entry) : Prop := (START_YEAR <= year e.2)%N.

(** The dates of the entries a call returned. *)
Definition returned_dates (r : option (result (list entry))) : list (N * N * N) :=
  match r with
  | Some (Ok data) => List.map (fun e : entry => (year e.2, month e.2, day e.2)) data
  | _ => []
  end.

(** No cell of the workbook is a string containing the marker phrase. *)
Definition marker_free (sheets : list Sheet) : Prop :=
  forall (sheet : Sheet) (row : list Cell) (s : str),
    sheet ∈ sheets -> row ∈ sheet -> CStr s ∈ row -> ~ substring MARKER s.

(** The column [c] of a frame. *)
Definition column_of (g : Frame) (c : str) : list Cell :=
  List.map (fun r => cell r c) (rows g).

(** The frame after [df[c'] = fn(df[c])], element by element. *)
Definition col_apply (c c' : str) (fn : Cell -> Cell) (g : Frame) : Frame :=
  MkFrame (if bool_decide (c' ∈ columns g) then columns g else columns g ++ [c'])
          (List.map (fun r => <[c' := fn (cell r c)]> r) (rows g)).

(** The frame after [df[c] = v] for a scalar [v]. *)
Definition col_const (c : str) (v : Cell) (g : Frame) : Frame :=
  MkFrame (if bool_decide (c ∈ columns g) then columns g else columns g ++ [c])
          (List.map (fun r => <[c := v]> r) (rows g)).

Definition renaming : list (str * str) :=
  [(COL_CODE, L_exchange_product_id);
   (COL_NAME, L_exchange_product_name);
   (COL_BASIS, L_delivery_basis_name)].

(** The frames [process_dataframe] creates, in the order it creates
    them. First the copy, with the texts of lines 101 to 103. *)
Definition stripped (f : Frame) : Frame :=
  col_apply COL_TOTAL COL_TOTAL (fun c => CStr (clean c))
    (col_apply COL_VOLUME COL_VOLUME (fun c => CStr (clean c))
       (col_apply COL_COUNT COL_COUNT (fun c => CStr (clean c)) f)).

(** What line 105 makes of the count column: its integers, or the
    exception of [astype]. *)
Definition count_column (pd : Library) (f : Frame) : result (list Z) :=
  astype_int pd (fillna0 (to_numeric pd (column_of (stripped f) COL_COUNT))).

(** The copy with the three columns of lines 105 to 107, given the
    integers of the first. *)
Definition counted (counts : list Z) (f : Frame) : Frame :=
  frame_setitem L_count (List.map CInt counts) (stripped f).

Definition measured (pd : Library) (c c' : str) (g : Frame) : Frame :=
  frame_setitem c' (cells_of (to_numeric pd (column_of g c))) g.

Definition coerced (pd : Library) (counts : list Z) (f : Frame) : Frame :=
  measured pd COL_TOTAL L_total (measured pd COL_VOLUME L_volume (counted counts f)).

(** Then the four selections of lines 109 to 112. *)
Definition onto (g : Frame) (keep : Row -> bool) : Frame :=
  MkFrame (columns g) (List.filter keep (rows g)).

Definition kept1 (g : Frame) : Frame :=
  onto g (fun r => gt0 (cell r L_count)).
Definition kept2 (g : Frame) : Frame :=
  onto (kept1 g) (fun r => notna (cell r L_volume)).
Definition kept3 (g : Frame) : Frame :=
  onto (kept2 g) (fun r => notna (cell r L_total)).
Definition kept4 (g : Frame) : Frame :=
  onto (kept3 g) (fun r => negb (contains SUMMARY (str_of_cell (cell r COL_CODE)))).

(** Then the renamed frame with its six assignments, and the projection. *)
Definition derived (trade_date now : datetime) (g : Frame) : Frame :=
  col_const L_updated_on (CTime now)
    (col_const L_created_on (CTime now)
       (col_const L_date (CTime trade_date)
          (col_apply L_exchange_product_id L_delivery_type_id
             (fun c => cell_of_ostr (str_get (-1) (str_of_cell c)))
             (col_apply L_exchange_product_id L_delivery_basis_id
                (fun c => CStr (slice (Some 4%Z) (Some 7%Z) (str_of_cell c)))
                (col_apply L_exchange_product_id L_oil_id
                   (fun c => CStr (slice None (Some 4%Z) (str_of_cell c)))
                   (frame_rename renaming (kept4 g))))))).

Definition batch (trade_date now : datetime) (g : Frame) : Frame :=
  frame_project output_columns (derived trade_date now g).

(** A grid lacks one of the expected columns. *)
Definition incomplete (f : Frame) : bool :=
  existsb (fun col => negb (bool_decide (col ∈ columns f))) expected_columns.

(** What a call makes of a grid: nothing when a column is missing,
    otherwise the batch, unless line 105 raises. *)
Definition normalize (pd : Library) (trade_date now : datetime) (f : Frame)
    : result (option Frame) :=
  if incomplete f then Ok None
  else counts <- count_column pd f;;
       Ok (Some (batch trade_date now (coerced pd counts f))).

(** The same, one row at a time. *)
Definition upd (c c' : str) (fn : Cell -> Cell) (r : Row) : Row :=
  <[c' := fn (cell r c)]> r.

Definition strip_row (r : Row) : Row :=
  upd COL_TOTAL COL_TOTAL (fun c => CStr (clean c))
    (upd COL_VOLUME COL_VOLUME (fun c => CStr (clean c))
       (upd COL_COUNT COL_COUNT (fun c => CStr (clean c)) r)).

Definition keep_row (r : Row) : bool :=
  gt0 (cell r L_count) && notna (cell r L_volume) && notna (cell r L_total) &&
  negb (contains SUMMARY (str_of_cell (cell r COL_CODE))).

Definition derive_row (trade_date now : datetime) (r : Row) : Row :=
  project_row output_columns
    (<[L_updated_on := CTime now]>
       (<[L_created_on := CTime now]>
          (<[L_date := CTime trade_date]>
             (upd L_exchange_product_id L_delivery_type_id
                (fun c => cell_of_ostr (str_get (-1) (str_of_cell c)))
                (upd L_exchange_product_id L_delivery_basis_id
                   (fun c => CStr (slice (Some 4%Z) (Some 7%Z) (str_of_cell c)))
                   (upd L_exchange_product_id L_oil_id
                      (fun c => CStr (slice None (Some 4%Z) (str_of_cell c)))
                      (rename_row renaming r))))))).

(** A row of the grid with the numbers lines 105 to 107 give it. *)
Definition with_numbers (r : Row) (count volume total : Cell) : Row :=
  <[L_total := total]> (<[L_volume := volume]> (<[L_count := count]> (strip_row r))).

(** A cell that holds a number: an integer or a float, finite or not. *)
Definition numeric (c : Cell) : Prop :=
  match c with
  | CInt _ | CFloat _ _ | CInf _ => True
  | _ => False
  end.

(** The record invariant without its bound on the volume. *)
Definition record_ok (r : Row) : Prop :=
  (exists n, cell r L_count = CInt n /\ (0 < n)%Z) /\
  numeric (cell r L_volume) /\ numeric (cell r L_total) /\
  ~ substring SUMMARY (str_of_cell (cell r L_exchange_product_id)).

(** A number that is not below zero. *)
Definition nonnegative (c : Cell) : Prop :=
  match c with
  | CInt z => (0 <= z)%Z
  | CFloat m _ => (0 <= m)%Z
  | CInf neg => neg = false
  | _ => True
  end.

(** The record invariant as the specification states it. *)
Definition record_invariant (r : Row) : Prop :=
  record_ok r /\ nonnegative (cell r L_volume).


(** The record [save_to_db] builds from a row of a frame. *)
Definition record_of (labels : list str) (row : Row) : Row :=
  list_to_map (to_dict labels row).

(** The calls one record of the batch gives rise to. *)
Definition attempt (record : Row) (conflict : bool) : list Event :=
  EvAdd record conflict :: (if conflict then [EvRollback] else []).

(** ** Vocabulary of the further properties *)

(** What lines 46 to 52 make of one link: [None] when the link is passed
    over (other title, no span, blank span, no date in it), otherwise the
    outcome of building the date from the first match. *)
Definition link_date (link : Anchor) : option (result datetime) :=
  if contains BULLETIN_TITLE (a_text link) then
    match a_next_span link with
    | Some span_text =>
        match strip span_text with
        | [] => None
        | _ :: _ =>
            match search_date (strip span_text) with
            | Some (d, m, y) =>
                Some (datetime_ymd (int_of_decimals y) (int_of_decimals m)
                        (int_of_decimals d))
            | None => None
            end
        end
    | None => None
    end
  else None.

(** The entry a link stands for. *)
Definition entry_of (link : Anchor) : list entry :=
  match link_date link with
  | Some (Ok d) => [(BASE_URL ++ a_href link, d)]
  | _ => []
  end.

Definition entries_of (links : list Anchor) : list entry :=
  flat_map entry_of links.

(** A link that is passed over, or dated in [START_YEAR] or later. *)
Definition good_link (link : Anchor) : Prop :=
  match link_date link with
  | None => True
  | Some (Ok d) => (START_YEAR <= year d)%N
  | Some (Raise _) => False
  end.

(** A page all of whose links are good and that lists at least one entry. *)
Definition good_page (links : list Anchor) : Prop :=
  Forall good_link links /\ entries_of links <> [].

(** The session answers the pages from [page_number] on with [pages]. *)
Fixpoint served (session : network) (page_number : N)
    (pages : list (list Anchor)) : Prop :=
  match pages with
  | [] => True
  | links :: others =>
      fetch_html session (page_url page_number) = Ok links /\
      served session (page_number + 1) others
  end.

(** An entry read from a link of a page the session served. *)
Definition from_listing (session : network) (e : entry) : Prop :=
  exists (page_number : N) (links : list Anchor) (link : Anchor) (d : datetime),
    fetch_html session (page_url page_number) = Ok links /\
    link ∈ links /\ link_date link = Some (Ok d) /\
    e = (BASE_URL ++ a_href link, d).

(** A date of the calendar, at midnight. *)
Definition calendar_date (t : datetime) : Prop :=
  (1 <= year t <= 9999)%N /\ (1 <= month t <= 12)%N /\
  (1 <= day t <= days_in_month (year t) (month t))%N /\
  hour t = 0%N /\ minute t = 0%N /\ second t = 0%N /\ microsecond t = 0%N.

(** No cell of these rows is a string containing the marker phrase. *)
Definition marker_free_rows (sheet : Sheet) : Prop :=
  forall (row : list Cell) (s : str),
    row ∈ sheet -> CStr s ∈ row -> ~ substring MARKER s.

(** A row with a string cell that contains the marker phrase. *)
Definition marker_row (row : list Cell) : Prop :=
  exists s, CStr s ∈ row /\ substring MARKER s.

(** A label without a newline and without white space at either end. *)
Definition tidy (label : str) : Prop :=
  (10%N ∉ label) /\
  (forall c rest, label = c :: rest -> isspace c = false) /\
  (forall init c, label = init ++ [c] -> isspace c = false).


(** [r'] is [r] with one comma taken out of the text of its count, its
    volume or its total. *)
Definition comma_variant (r r' : Row) : Prop :=
  r' = r \/
  exists (col : str) (a b : str),
    col ∈ [COL_COUNT; COL_VOLUME; COL_TOTAL] /\
    cell r col = CStr (a ++ 44%N :: b) /\ r' = <[col := CStr (a ++ b)]> r.

(** A float column with an infinite value in it. *)
Definition has_infinite (col : column) : Prop :=
  exists (values : list float64) (neg : bool),
    col = Float64 values /\ Infinite neg ∈ values.

(** The library returns a column as long as the one it is given. *)
Definition column_length (col : column) : nat :=
  match col with
  | Int64 values | UInt64 values => length values
  | Float64 values => length values
  end.

Definition keeps_length (pd : Library) : Prop :=
  forall cells : list Cell, column_length (to_numeric pd cells) = length cells.

(** The rows of a grid, each with the count, the volume and the total
    that lines 105 to 107 give it. *)
Definition numbered (pd : Library) (counts : list Z) (f : Frame)
    : list (Row * (Z * (Cell * Cell))) :=
  zip (rows f)
    (zip counts
       (zip (cells_of (to_numeric pd (column_of (stripped f) COL_VOLUME)))
            (cells_of (to_numeric pd (column_of (stripped f) COL_TOTAL))))).

(** A numbered row that is to be excluded: count at most 0, volume or
    total missing, or a summary line. *)
Definition excluded (x : Row * (Z * (Cell * Cell))) : Prop :=
  (x.2.1 <= 0)%Z \/ x.2.2.1 = CNaN \/ x.2.2.2 = CNaN \/
  substring SUMMARY (str_of_cell (cell x.1 COL_CODE)).

(** An output row that carries the instrument and the numbers of a
    numbered row. *)
Definition made_from (x : Row * (Z * (Cell * Cell))) (rout : Row) : Prop :=
  cell rout L_exchange_product_id = cell x.1 COL_CODE /\
  cell rout L_exchange_product_name = cell x.1 COL_NAME /\
  cell rout L_delivery_basis_name = cell x.1 COL_BASIS /\
  cell rout L_count = CInt x.2.1 /\
  cell rout L_volume = x.2.2.1 /\
  cell rout L_total = x.2.2.2.

(** The pending unit of work after the attempts on [records], given for
    each whether it met a conflict: a conflict empties it. *)
Fixpoint staged (records : list Row) (flags : list bool) (pending : list Row)
    : list Row :=
  match records, flags with
  | record :: others, conflict :: flags' =>
      staged others flags' (if conflict then [] else pending ++ [record])
  | _, _ => pending
  end.

(** The rows a file contributes: those of its batch, if it was extracted
    and normalized. *)
Definition file_batch (pd : Library) (now date : datetime) (df : option Frame)
    : list Row :=
  match df with
  | Some f =>
      match normalize pd date now f with
      | Ok (Some fo) => rows fo
      | _ => []
      end
  | None => []
  end.

Fixpoint persisted (pd : Library) (clock : nat -> datetime) (i : nat)
    (files : list (entry * option Frame)) : list Row :=
  match files with
  | [] => []
  | ((_, date), df) :: others =>
      file_batch pd (clock i) date df ++ persisted pd clock (S i) others
  end.

(** A file that is passed over: not extracted, or without one of the
    expected columns. *)
Definition passed_over (file : entry * option Frame) : Prop :=
  match file.2 with
  | Some f => incomplete f = true
  | None => True
  end.

(** A grid whose labels are pairwise distinct and hold none of the labels
    that [rename] introduces. *)
Definition plain_labels (f : Frame) : Prop :=
  NoDup (columns f) /\
  Forall (fun c => c ∉ columns f)
    [L_exchange_product_id; L_exchange_product_name; L_delivery_basis_name].

(** A file that is passed over or normalized: line 105 does not raise on
    it. *)
Definition countable (pd : Library) (file : entry * option Frame) : Prop :=
  match file.2 with
  | Some f =>
      incomplete f = true \/
      (plain_labels f /\ exists counts, count_column pd f = Ok counts)
  | None => True
  end.

(** * Properties *)

(** ** Text *)

Lemma startswith_spec (p s : str) :
  startswith p s = true <-> exists post, s = p ++ post.
Proof.
  revert s. induction p as [|a p IH]; intros s; simpl.
  - split; [intros _; by exists s | done].
  - destruct s as [|b s].
    + split; [done | intros [post H]; discriminate H].
    + rewrite andb_true_iff, N.eqb_eq, IH. split.
      * intros [-> [post ->]]. by exists post.
      * intros [post H]. injection H as -> ->. eauto.
Qed.

Lemma contains_spec (needle hay : str) :
  contains needle hay = true <-> substring needle hay.
Proof.
  unfold substring. induction hay as [|c hay IH]; simpl.
  - rewrite orb_false_r, startswith_spec. split.
    + intros [post H]. exists [], post. done.
    + intros [pre [post H]]. destruct pre as [|x pre]; [|discriminate H].
      simpl in H. by exists post.
  - rewrite orb_true_iff, startswith_spec, IH. split.
    + intros [[post H] | [pre [post H]]].
      * exists [], post. done.
      * exists (c :: pre), post. by rewrite H.
    + intros [pre [post H]]. destruct pre as [|x pre].
      * left. by exists post.
      * right. injection H as -> ->. eauto.
Qed.

Lemma contains_false_spec (needle hay : str) :
  contains needle hay = false <-> ~ substring needle hay.
Proof.
  rewrite <- contains_spec. destruct (contains needle hay); split; try done.
Qed.

(** Slices, in terms of [take], [drop] and [last]. *)




(** ** Bulletin Locator *)

Lemma scan_links_inv (links : list Anchor) :
  forall (data : list entry) (found_new : bool),
    length data < LIMIT_FILES -> Forall recent data ->
    match scan_links links data found_new with
    | Ok (Next data' found_new') =>
        length data <= length data' <= LIMIT_FILES /\ Forall recent data' /\
        (found_new' = true -> found_new = true \/ length data < length data')
    | Ok (Returned data') => length data' <= LIMIT_FILES /\ Forall recent data'
    | Raise _ => True
    end.
Proof.
  induction links as [|link rest IH]; intros data fn Hlen Hrec; cbn [scan_links].
  - repeat split; auto; lia.
  - destruct (contains BULLETIN_TITLE (a_text link)); [|by apply IH].
    destruct (a_next_span link) as [span_text|]; [|by apply IH].
    destruct (strip span_text) as [|c t] eqn:Hstrip; [by apply IH|].
    destruct (search_date (c :: t)) as [[[d m] y]|]; [|by apply IH].
    destruct (datetime_ymd _ _ _) as [trade_date|e]; cbn [bind]; [|done].
    destruct (year trade_date <? START_YEAR)%N eqn:Hyear.
    { split; [lia | done]. }
    apply N.ltb_ge in Hyear.
    set (e := (BASE_URL ++ a_href link, trade_date)).
    assert (Hrec' : Forall recent (data ++ [e])).
    { apply Forall_app. split; [done|]. by constructor. }
    assert (Hlen' : length (data ++ [e]) = S (length data)).
    { rewrite length_app. simpl. lia. }
    destruct (LIMIT_FILES <=? length (data ++ [e])) eqn:Hfull.
    + apply Nat.leb_le in Hfull. repeat split; auto; lia.
    + apply Nat.leb_gt in Hfull.
      specialize (IH (data ++ [e]) true Hfull Hrec').
      destruct (scan_links rest _ true) as [[data' fn'|data']|e']; [|done|done].
      destruct IH as [[H1 H2] [H3 _]]. repeat split; auto; lia.
Qed.

Lemma pages_loop_inv (session : network) (fuel : nat) :
  forall (page_number : N) (data : list entry),
    length data <= LIMIT_FILES -> Forall recent data ->
    LIMIT_FILES < fuel + length data ->
    exists r, pages_loop fuel session page_number data = Some r /\
      match r with
      | Ok data' => length data' <= LIMIT_FILES /\ Forall recent data'
      | Raise _ => True
      end.
Proof.
  induction fuel as [|fuel IH]; intros page data Hlen Hrec Hfuel; [simpl in *; lia|].
  cbn [pages_loop]. destruct (length data <? LIMIT_FILES) eqn:Hlt.
  - apply Nat.ltb_lt in Hlt.
    destruct (fetch_html session (page_url page)) as [html|e]; [|by exists (Raise e)].
    pose proof (scan_links_inv html data false Hlt Hrec) as Hscan.
    destruct (scan_links html data false) as [[data' fn'|data']|e].
    + destruct Hscan as [[H1 H2] [H3 H4]]. destruct fn'; simpl.
      * apply IH; auto. destruct H4 as [H4|H4]; [done|discriminate|lia].
      * by exists (Ok data').
    + by exists (Ok data').
    + by exists (Raise e).
  - by exists (Ok data).
Qed.

(** C2. Whatever the listing pages are, [get_bulletin_urls] terminates,
    and when it returns a list it holds at most [LIMIT_FILES] entries,
    none of them dated in a year before [START_YEAR]. *)
Theorem get_bulletin_urls_bounded (session : network) :
  exists r, get_bulletin_urls session = Some r /\
    match r with
    | Ok data =>
        length data <= LIMIT_FILES /\
        Forall (fun e : entry => (START_YEAR <= year e.2)%N) data
    | Raise _ => True
    end.
Proof.
  unfold get_bulletin_urls.
  apply (pages_loop_inv session (S LIMIT_FILES) 1%N []); simpl; auto; lia.
Qed.

(** The first scenario of the specification: three bulletins of 2024 on
    page 1 are all returned, after page 2 was asked for and found empty. *)
Example get_bulletin_urls_three_links :
  returned_dates
    (get_bulletin_urls Samples.three_links_session)
  = [(2024, 5, 1); (2024, 4, 24); (2024, 4, 17)]%N.
Proof. reflexivity. Qed.

(** A link whose date text does not match the pattern is skipped and the
    scan goes on. *)
Example get_bulletin_urls_skips_unmatched :
  returned_dates
    (get_bulletin_urls
       (fun url =>
          if bool_decide (url = RESULTS_URL)
          then Samples.ok_page [Samples.bulletin_link "01.05.2024";
                                Samples.bulletin_link "date unknown";
                                Samples.bulletin_link "17.04.2024"]
          else Samples.ok_page []))
  = [(2024, 5, 1); (2024, 4, 17)]%N.
Proof. reflexivity. Qed.

(** C3. A link dated "31.02.2022" matches the date pattern, and building
    the date from its groups raises [ValueError], which nothing in
    [get_bulletin_urls] catches: the call raises instead of returning the
    entry collected before it. *)
Theorem get_bulletin_urls_invalid_date_raises :
  get_bulletin_urls Samples.bad_date_session = Some (Raise ValueError).
Proof. reflexivity. Qed.

(** The date pattern and [int] take the decimal digits of any script:
    a bulletin dated 01.05.2024 in Arabic-Indic digits is returned. *)
Example get_bulletin_urls_reads_decimal_digits :
  returned_dates (get_bulletin_urls Cases.arabic_indic_session) = [(2024, 5, 1)]%N.
Proof. vm_compute. reflexivity. Qed.

(** ** Fetcher and Spreadsheet Extractor *)

(** [fetch_html] raises on every status from 400 up. *)
Lemma fetch_html_raises (session : network) (url : str) (resp : Response) :
  session url = Ok resp -> (400 <= status resp)%N ->
  fetch_html session url = Raise (ClientResponseError (status resp)).
Proof.
  intros Hget Hst. unfold fetch_html, raise_for_status. rewrite Hget. simpl.
  apply N.ltb_ge in Hst. by rewrite Hst.
Qed.

(** C4. On a 404 answer [fetch_html] raises, but [download_and_parse]
    never looks at the status: it reads the body whatever the status is,
    and with a body that is no workbook it returns [None], the value of a
    skipped file. *)
Theorem download_and_parse_ignores_status :
  fetch_html Samples.not_found_session RESULTS_URL = Raise (ClientResponseError 404) /\
  download_and_parse Samples.not_found_session RESULTS_URL = Ok None /\
  forall (st : N) (b : Body) (url : str),
    download_and_parse (fun _ => Ok (MkResponse st b)) url
    = download_and_parse (fun _ => Ok (MkResponse 200 b)) url.
Proof. repeat split. Qed.

Lemma has_marker_false (row : list Cell) :
  (forall s, CStr s ∈ row -> ~ substring MARKER s) -> has_marker row = false.
Proof.
  intros H. unfold has_marker. apply not_true_is_false. intros Hex.
  apply existsb_exists in Hex as [c [Hin Hc]].
  destruct c as [s| | | | | |]; try discriminate Hc.
  apply contains_spec in Hc. apply (H s); [|done]. by apply list_elem_of_In.
Qed.

Lemma scan_rows_none (sheet : Sheet) :
  (forall row s, row ∈ sheet -> CStr s ∈ row -> ~ substring MARKER s) ->
  scan_rows sheet = None.
Proof.
  induction sheet as [|row below IH]; intros H; simpl; [done|].
  rewrite has_marker_false.
  - apply IH. intros r s Hr. apply H. by right.
  - intros s. apply H. by left.
Qed.

Lemma scan_sheets_none (sheets : list Sheet) :
  marker_free sheets -> scan_sheets sheets = Ok None.
Proof.
  induction sheets as [|sheet others IH]; intros H; simpl; [done|].
  rewrite scan_rows_none.
  - apply IH. intros sh row s Hsh. apply H. by right.
  - intros row s. apply H. by left.
Qed.

(** C5. When the bytes fetched are no workbook, and when they are a
    workbook none of whose cells is a string containing the marker
    phrase, [download_and_parse] returns [None] and does not raise. *)
Theorem download_and_parse_absent (session : network) (url : str) (resp : Response) :
  session url = Ok resp ->
  (as_xls (body resp) = None \/
   exists sheets, as_xls (body resp) = Some sheets /\ marker_free sheets) ->
  download_and_parse session url = Ok None.
Proof.
  intros Hget H. unfold download_and_parse. rewrite Hget. simpl.
  destruct H as [-> | [sheets [-> Hfree]]]; [done|]. by apply scan_sheets_none.
Qed.

Lemma marker_free_plain : marker_free [Samples.plain_sheet].
Proof.
  intros sheet row s Hsheet Hrow Hs.
  apply contains_false_spec.
  apply list_elem_of_singleton in Hsheet. subst sheet.
  unfold Samples.plain_sheet in Hrow.
  repeat (apply elem_of_cons in Hrow as [-> | Hrow]);
    [| |by apply elem_of_nil in Hrow].
  - repeat (apply elem_of_cons in Hs as [Hs | Hs]); try discriminate Hs;
      [|by apply elem_of_nil in Hs].
    injection Hs as ->. reflexivity.
  - repeat (apply elem_of_cons in Hs as [Hs | Hs]); try discriminate Hs.
    by apply elem_of_nil in Hs.
Qed.

Lemma download_and_parse_absent_witness :
  download_and_parse Samples.plain_session RESULTS_URL = Ok None.
Proof.
  apply (download_and_parse_absent Samples.plain_session RESULTS_URL
           (MkResponse 200 (MkBody [] (Some [Samples.plain_sheet])))).
  - reflexivity.
  - right. exists [Samples.plain_sheet]. split; [reflexivity | apply marker_free_plain].
Defined.

(** ** The store *)

Section StoreRuns.

Local Open Scope st_scope.

Context {A : Type}.

Lemma lookup_snoc (h : Store) (g : Frame) : (h ++ [g]) !! length h = Some g.
Proof. by apply list_lookup_middle. Qed.

Lemma insert_snoc (h : Store) (g g' : Frame) :
  <[length h := g']> (h ++ [g]) = h ++ [g'].
Proof. rewrite insert_app_r_alt by lia. by rewrite Nat.sub_diag. Qed.

Lemma zip_with_map_self {X Y Z : Type} (f : X -> Y -> Z) (g : X -> Y) (l : list X) :
  zip_with f l (List.map g l) = List.map (fun x => f x (g x)) l.
Proof. induction l as [|x l IH]; simpl; [done | by rewrite IH]. Qed.

Lemma zip_with_repeat {X Y Z : Type} (f : X -> Y -> Z) (y : Y) (l : list X) :
  zip_with f l (repeat y (length l)) = List.map (fun x => f x y) l.
Proof. induction l as [|x l IH]; simpl; [done | by rewrite IH]. Qed.

Lemma select_map (p : Row -> bool) (rs : list Row) :
  select (List.map p rs) rs = List.filter p rs.
Proof.
  induction rs as [|r rs IH]; simpl; [done|]. rewrite IH. by destruct (p r).
Qed.

Lemma run_lift {B : Type} (r : result B) (K : B -> St A) (h : Store) :
  (x <- lift r;; K x) h
  = match r with
    | Ok b => K b h
    | Raise e => (Raise e, h)
    end.
Proof. unfold sbind, lift. by destruct r. Qed.

Lemma run_getitem (c : str) (K : list Cell -> St A) (h : Store) (g : Frame) :
  c ∈ columns g ->
  (s <- getitem (length h) c;; K s) (h ++ [g]) = K (column_of g c) (h ++ [g]).
Proof.
  intros Hc. unfold sbind, getitem, sbind, deref, ret.
  by rewrite lookup_snoc, bool_decide_true by done.
Qed.

Lemma run_setitem (c : str) (values : list Cell) (K : St A) (h : Store) (g : Frame) :
  (setitem (length h) c values;;; K) (h ++ [g]) = K (h ++ [frame_setitem c values g]).
Proof.
  unfold sbind, setitem, sbind, deref, assign. by rewrite lookup_snoc, insert_snoc.
Qed.

Lemma run_copy (df : loc) (f : Frame) (K : loc -> St A) (h : Store) :
  h !! df = Some f ->
  (df' <- df_copy df;; K df') h = K (length h) (h ++ [f]).
Proof. intros H. unfold sbind, df_copy, sbind, deref, alloc. by rewrite H. Qed.

Lemma run_getitem_setitem (c c' : str) (fn : Cell -> Cell) (K : St A)
    (h : Store) (g : Frame) :
  c ∈ columns g ->
  (s <- getitem (length h) c;; setitem (length h) c' (List.map fn s);;; K) (h ++ [g])
  = K (h ++ [col_apply c c' fn g]).
Proof.
  intros Hc. unfold sbind, getitem, setitem, sbind, deref, assign, ret.
  rewrite lookup_snoc, bool_decide_true by done. rewrite lookup_snoc, insert_snoc.
  unfold frame_setitem, col_apply.
  by rewrite List.map_map, (zip_with_map_self (fun r v => <[c' := v]> r)).
Qed.

Lemma run_getitem_filter (c : str) (p : Cell -> bool) (K : loc -> St A)
    (h : Store) (g : Frame) :
  c ∈ columns g ->
  (s <- getitem (length h) c;; df <- filter_rows (length h) (List.map p s);; K df)
    (h ++ [g])
  = K (length (h ++ [g]))
      ((h ++ [g]) ++ [MkFrame (columns g) (List.filter (fun r => p (cell r c)) (rows g))]).
Proof.
  intros Hc. unfold sbind, getitem, filter_rows, sbind, deref, alloc, ret.
  rewrite lookup_snoc, bool_decide_true by done. rewrite lookup_snoc.
  unfold frame_filter. by rewrite List.map_map, (select_map (fun r => p (cell r c))).
Qed.

Lemma run_rename (mapping : list (str * str)) (K : loc -> St A)
    (h : Store) (g : Frame) :
  (df <- rename (length h) mapping;; K df) (h ++ [g])
  = K (length (h ++ [g])) ((h ++ [g]) ++ [frame_rename mapping g]).
Proof. unfold sbind, rename, sbind, deref, alloc. by rewrite lookup_snoc. Qed.

Lemma run_setitem_scalar (c : str) (v : Cell) (K : St A) (h : Store) (g : Frame) :
  (setitem_scalar (length h) c v;;; K) (h ++ [g]) = K (h ++ [col_const c v g]).
Proof.
  unfold sbind, setitem_scalar, setitem, sbind, deref, assign.
  rewrite lookup_snoc, lookup_snoc, insert_snoc.
  unfold frame_setitem, col_const. by rewrite zip_with_repeat.
Qed.

Lemma run_project (labels : list str) (K : loc -> St A) (h : Store) (g : Frame) :
  Forall (fun c => c ∈ columns g) labels ->
  (out <- project (length h) labels;; K out) (h ++ [g])
  = K (length (h ++ [g])) ((h ++ [g]) ++ [frame_project labels g]).
Proof.
  intros Hall. unfold sbind, project, sbind, deref, alloc. rewrite lookup_snoc.
  replace (forallb _ labels) with true; [done|].
  symmetry. apply forallb_forall. intros c Hc. apply bool_decide_eq_true.
  rewrite Forall_forall in Hall. apply Hall. by apply list_elem_of_In.
Qed.

End StoreRuns.
(** ** Row Normalizer *)

Ltac label_neq :=
  let H := fresh in intros H; vm_compute in H; discriminate H.

Ltac in_labels := vm_compute; repeat first [ by left | right ].

Ltac has_expected := repeat constructor; in_labels.

Lemma col_apply_old (c0 c c' : str) (fn : Cell -> Cell) (g : Frame) :
  c0 ∈ columns g -> c0 ∈ columns (col_apply c c' fn g).
Proof.
  intros H. unfold col_apply. simpl. case_bool_decide; [done|].
  apply elem_of_app. by left.
Qed.

Lemma col_apply_new (c c' : str) (fn : Cell -> Cell) (g : Frame) :
  c' ∈ columns (col_apply c c' fn g).
Proof.
  unfold col_apply. simpl. case_bool_decide; [done|].
  apply elem_of_app. right. by apply list_elem_of_singleton.
Qed.

Lemma col_const_old (c0 c : str) (v : Cell) (g : Frame) :
  c0 ∈ columns g -> c0 ∈ columns (col_const c v g).
Proof.
  intros H. unfold col_const. simpl. case_bool_decide; [done|].
  apply elem_of_app. by left.
Qed.

Lemma col_const_new (c : str) (v : Cell) (g : Frame) :
  c ∈ columns (col_const c v g).
Proof.
  unfold col_const. simpl. case_bool_decide; [done|].
  apply elem_of_app. right. by apply list_elem_of_singleton.
Qed.

Lemma frame_setitem_old (c0 c : str) (values : list Cell) (g : Frame) :
  c0 ∈ columns g -> c0 ∈ columns (frame_setitem c values g).
Proof.
  intros H. unfold frame_setitem. simpl. case_bool_decide; [done|].
  apply elem_of_app. by left.
Qed.

Lemma frame_setitem_new (c : str) (values : list Cell) (g : Frame) :
  c ∈ columns (frame_setitem c values g).
Proof.
  unfold frame_setitem. simpl. case_bool_decide; [done|].
  apply elem_of_app. right. by apply list_elem_of_singleton.
Qed.

Lemma renaming_present (g : Frame) :
  COL_CODE ∈ columns g -> COL_NAME ∈ columns g -> COL_BASIS ∈ columns g ->
  frame_rename renaming g
  = MkFrame (List.map (rename_label renaming) (columns g))
            (List.map (rename_row renaming) (rows g)).
Proof.
  intros H1 H2 H3. unfold frame_rename, renaming. cbn [List.filter fst].
  by rewrite !bool_decide_true.
Qed.

Lemma renamed_column (c c' : str) (g : Frame) :
  COL_CODE ∈ columns g -> COL_NAME ∈ columns g -> COL_BASIS ∈ columns g ->
  c ∈ columns g -> rename_label renaming c = c' ->
  c' ∈ columns (frame_rename renaming g).
Proof.
  intros H1 H2 H3 Hc <-. rewrite renaming_present by done. simpl.
  apply list_elem_of_In, in_map, list_elem_of_In, Hc.
Qed.

Create HintDb cols.
#[local] Hint Resolve col_apply_old col_apply_new col_const_old col_const_new
  frame_setitem_old frame_setitem_new : cols.

Lemma expected_false (f : Frame) :
  Forall (fun c => c ∈ columns f) expected_columns -> incomplete f = false.
Proof.
  intros H. apply not_true_is_false. intros Hex.
  apply existsb_exists in Hex as [c [Hin Hc]].
  rewrite Forall_forall in H. apply list_elem_of_In, H in Hin.
  by rewrite bool_decide_true in Hc.
Qed.

Lemma expected_true (f : Frame) (c : str) :
  c ∈ expected_columns -> c ∉ columns f -> incomplete f = true.
Proof.
  intros Hin Hc. apply existsb_exists. exists c. split; [by apply list_elem_of_In|].
  by rewrite bool_decide_false.
Qed.

Lemma expected_forall (f : Frame) :
  incomplete f = false -> Forall (fun c => c ∈ columns f) expected_columns.
Proof.
  intros Hex. apply Forall_forall. intros c Hc.
  destruct (decide (c ∈ columns f)) as [|Hn]; [done|].
  by rewrite (expected_true f c Hc Hn) in Hex.
Qed.

Lemma stripped_columns (f : Frame) (c : str) :
  c ∈ columns f -> c ∈ columns (stripped f).
Proof. intros H. unfold stripped. eauto 10 with cols. Qed.

Lemma coerced_columns (pd : Library) (counts : list Z) (f : Frame) (c : str) :
  c ∈ columns f -> c ∈ columns (coerced pd counts f).
Proof.
  intros H. unfold coerced, measured, counted, stripped. eauto 10 with cols.
Qed.

Lemma kept4_columns (g : Frame) (c : str) : c ∈ columns g -> c ∈ columns (kept4 g).
Proof. done. Qed.

Section NormalizerRuns.

Variable pd : Library.

(** A call on a grid with the six columns, step by step: it ends at line
    105 when [astype] raises, and otherwise runs to the end. *)
Lemma process_dataframe_run (df : loc) (trade_date now : datetime)
    (h : Store) (f : Frame) :
  h !! df = Some f -> incomplete f = false ->
  process_dataframe pd df trade_date now h
  = match count_column pd f with
    | Ok counts =>
        (Ok (Some (length h + 6)),
         h ++ [coerced pd counts f; kept1 (coerced pd counts f);
               kept2 (coerced pd counts f); kept3 (coerced pd counts f);
               kept4 (coerced pd counts f);
               derived trade_date now (coerced pd counts f);
               batch trade_date now (coerced pd counts f)])
    | Raise e => (Raise e, h ++ [stripped f])
    end.
Proof.
  intros Hdf Hinc.
  assert (Hcols := expected_forall f Hinc). unfold expected_columns in Hcols.
  repeat (apply Forall_cons in Hcols as [? Hcols]).
  unfold process_dataframe.
  unfold sbind at 1. unfold deref at 1. rewrite Hdf.
  unfold incomplete in Hinc. rewrite Hinc.
  rewrite (run_copy df f) by done.
  do 3 (rewrite run_getitem_setitem by eauto 10 with cols).
  fold (stripped f).
  rewrite run_getitem by (by apply stripped_columns).
  fold (count_column pd f). rewrite run_lift.
  destruct (count_column pd f) as [counts|e]; [|done].
  rewrite run_setitem. fold (counted counts f).
  rewrite run_getitem by (unfold counted; eauto 10 using stripped_columns with cols).
  rewrite run_setitem. fold (measured pd COL_VOLUME L_volume (counted counts f)).
  rewrite run_getitem
    by (unfold measured, counted; eauto 10 using stripped_columns with cols).
  rewrite run_setitem.
  fold (measured pd COL_TOTAL L_total (measured pd COL_VOLUME L_volume (counted counts f))).
  fold (coerced pd counts f).
  set (g := coerced pd counts f).
  assert (Hc : forall c, c ∈ columns f -> c ∈ columns g)
    by (intros c Hc; by apply coerced_columns).
  assert (Hcount : L_count ∈ columns g)
    by (unfold g, coerced, measured, counted; eauto 10 with cols).
  assert (Hvolume : L_volume ∈ columns g)
    by (unfold g, coerced, measured; eauto 10 with cols).
  assert (Htotal : L_total ∈ columns g)
    by (unfold g, coerced, measured; eauto 10 with cols).
  rewrite run_getitem_filter by exact Hcount.
  fold (onto g (fun r => gt0 (cell r L_count))). fold (kept1 g).
  rewrite run_getitem_filter by exact Hvolume.
  fold (onto (kept1 g) (fun r => notna (cell r L_volume))). fold (kept2 g).
  rewrite run_getitem_filter by exact Htotal.
  fold (onto (kept2 g) (fun r => notna (cell r L_total))). fold (kept3 g).
  rewrite run_getitem_filter by (apply Hc; assumption).
  fold (onto (kept3 g) (fun r => negb (contains SUMMARY (str_of_cell (cell r COL_CODE))))).
  fold (kept4 g).
  rewrite run_rename. fold renaming.
  assert (Hr : forall c c', c ∈ columns g -> rename_label renaming c = c' ->
                 c' ∈ columns (frame_rename renaming (kept4 g))).
  { intros c c' Hin Heq. apply (renamed_column c c'); auto. }
  assert (Hid : L_exchange_product_id ∈ columns (frame_rename renaming (kept4 g))).
  { apply (Hr COL_CODE); auto. }
  do 3 (rewrite run_getitem_setitem by eauto 10 with cols).
  do 3 rewrite run_setitem_scalar.
  fold (derived trade_date now g).
  rewrite run_project.
  - unfold ret. fold (batch trade_date now g).
    rewrite !length_app. simpl. f_equal; [do 2 f_equal; lia|].
    by rewrite <- !app_assoc.
  - assert (Hd : forall c, c ∈ columns (frame_rename renaming (kept4 g)) ->
                   c ∈ columns (derived trade_date now g)).
    { intros c Hin. unfold derived. eauto 10 with cols. }
    unfold output_columns.
    repeat (constructor;
      [first
        [ apply Hd; apply (Hr COL_CODE); [auto | reflexivity]
        | apply Hd; apply (Hr COL_NAME); [auto | reflexivity]
        | apply Hd; apply (Hr COL_BASIS); [auto | reflexivity]
        | apply Hd; apply (Hr L_volume); [exact Hvolume | reflexivity]
        | apply Hd; apply (Hr L_total); [exact Htotal | reflexivity]
        | apply Hd; apply (Hr L_count); [exact Hcount | reflexivity]
        | unfold derived; eauto 10 with cols ] |]).
    constructor.
Qed.

(** A call on a grid that lacks one of them. *)
Lemma process_dataframe_absent (df : loc) (trade_date now : datetime)
    (h : Store) (f : Frame) :
  h !! df = Some f -> incomplete f = true ->
  process_dataframe pd df trade_date now h = (Ok None, h).
Proof.
  intros Hdf Hex. unfold incomplete in Hex.
  unfold process_dataframe, sbind, deref. by rewrite Hdf, Hex.
Qed.

(** A call through a reference that holds no frame. *)
Lemma process_dataframe_unbound (df : loc) (trade_date now : datetime) (h : Store) :
  h !! df = None ->
  process_dataframe pd df trade_date now h = (Raise ReferenceError, h).
Proof. intros Hdf. unfold process_dataframe, sbind, deref. by rewrite Hdf. Qed.

(** What a successful call leaves in the store. *)
Lemma process_dataframe_batch (df : loc) (trade_date now : datetime)
    (h : Store) (f : Frame) (counts : list Z) :
  h !! df = Some f -> incomplete f = false -> count_column pd f = Ok counts ->
  exists out h',
    process_dataframe pd df trade_date now h = (Ok (Some out), h') /\
    h' !! out = Some (batch trade_date now (coerced pd counts f)).
Proof.
  intros Hdf Hinc Hcounts. eexists _, _. split.
  - rewrite (process_dataframe_run df trade_date now h f Hdf Hinc), Hcounts. done.
  - rewrite lookup_app_r by lia. by replace (length h + 6 - length h) with 6 by lia.
Qed.

(** Every call that returns a batch went this way. *)
Lemma process_dataframe_returns (df : loc) (trade_date now : datetime)
    (h h' : Store) (out : loc) :
  process_dataframe pd df trade_date now h = (Ok (Some out), h') ->
  exists f counts,
    h !! df = Some f /\ incomplete f = false /\ count_column pd f = Ok counts /\
    h' !! out = Some (batch trade_date now (coerced pd counts f)).
Proof.
  intros Hrun. destruct (h !! df) as [f|] eqn:Hdf.
  - destruct (incomplete f) eqn:Hinc.
    + by rewrite (process_dataframe_absent df trade_date now h f Hdf Hinc) in Hrun.
    + rewrite (process_dataframe_run df trade_date now h f Hdf Hinc) in Hrun.
      destruct (count_column pd f) as [counts|e] eqn:Hcounts; [|done].
      injection Hrun as <- <-. exists f, counts. repeat split; try done.
      rewrite lookup_app_r by lia.
      by replace (length h + 6 - length h) with 6 by lia.
  - by rewrite (process_dataframe_unbound df trade_date now h Hdf) in Hrun.
Qed.

(** The outcome of a call is the one [normalize] computes from the grid. *)
Lemma process_dataframe_normalize (df : loc) (trade_date now : datetime)
    (h : Store) (f : Frame) :
  h !! df = Some f ->
  match normalize pd trade_date now f with
  | Ok (Some fo) =>
      exists out h',
        process_dataframe pd df trade_date now h = (Ok (Some out), h') /\
        h' !! out = Some fo
  | Ok None => process_dataframe pd df trade_date now h = (Ok None, h)
  | Raise e => exists h', process_dataframe pd df trade_date now h = (Raise e, h')
  end.
Proof.
  intros Hdf. unfold normalize. destruct (incomplete f) eqn:Hinc.
  - by apply (process_dataframe_absent df trade_date now h f).
  - destruct (count_column pd f) as [counts|e] eqn:Hcounts; cbn [bind].
    + by apply (process_dataframe_batch df trade_date now h f counts).
    + rewrite (process_dataframe_run df trade_date now h f Hdf Hinc), Hcounts.
      by eexists.
Qed.

End NormalizerRuns.

(** The rows of the batch. *)

Lemma filter_map_comm {X Y : Type} (p : Y -> bool) (f : X -> Y) (l : list X) :
  List.filter p (List.map f l) = List.map f (List.filter (fun x => p (f x)) l).
Proof.
  induction l as [|x l IH]; simpl; [done|]. rewrite IH. by destruct (p (f x)).
Qed.

Lemma filter_filter_and {X : Type} (p q : X -> bool) (l : list X) :
  List.filter q (List.filter p l) = List.filter (fun x => p x && q x) l.
Proof.
  induction l as [|x l IH]; simpl; [done|].
  destruct (p x); simpl; [|done]. rewrite IH. by destruct (q x).
Qed.

Lemma rows_kept4 (g : Frame) : rows (kept4 g) = List.filter keep_row (rows g).
Proof.
  unfold kept4, kept3, kept2, kept1, onto. cbn [rows].
  rewrite !filter_filter_and.
  apply List.filter_ext. intros r. unfold keep_row. by rewrite !andb_assoc.
Qed.

Lemma rows_batch (trade_date now : datetime) (g : Frame) :
  COL_CODE ∈ columns g -> COL_NAME ∈ columns g -> COL_BASIS ∈ columns g ->
  rows (batch trade_date now g)
  = List.map (derive_row trade_date now) (List.filter keep_row (rows g)).
Proof.
  intros H1 H2 H3. unfold batch, derived.
  rewrite renaming_present by (by apply kept4_columns).
  unfold frame_project, col_const, col_apply. cbn [rows]. rewrite rows_kept4.
  by rewrite !List.map_map.
Qed.

Lemma rows_batch_coerced (pd : Library) (trade_date now : datetime)
    (counts : list Z) (f : Frame) :
  incomplete f = false ->
  rows (batch trade_date now (coerced pd counts f))
  = List.map (derive_row trade_date now)
      (List.filter keep_row (rows (coerced pd counts f))).
Proof.
  intros Hinc. assert (Hcols := expected_forall f Hinc).
  unfold expected_columns in Hcols.
  repeat (apply Forall_cons in Hcols as [? Hcols]).
  apply rows_batch; by apply coerced_columns.
Qed.

(** Cells of rows built by insertion. *)

Lemma cell_insert_eq (r : Row) (k : str) (v : Cell) : cell (<[k := v]> r) k = v.
Proof. unfold cell. by rewrite lookup_insert_eq. Qed.

Lemma cell_insert_ne (r : Row) (k k' : str) (v : Cell) :
  k ≠ k' -> cell (<[k := v]> r) k' = cell r k'.
Proof. intros H. unfold cell. by rewrite lookup_insert_ne. Qed.

Lemma cell_delete_ne (r : Row) (k k' : str) :
  k ≠ k' -> cell (delete k r) k' = cell r k'.
Proof. intros H. unfold cell. by rewrite lookup_delete_ne. Qed.

Lemma cell_project (labels : list str) (r : Row) (c : str) :
  c ∈ labels -> cell (project_row labels r) c = cell r c.
Proof.
  unfold project_row. induction labels as [|c0 labels IH]; intros Hin.
  - by apply elem_of_nil in Hin.
  - simpl. destruct (decide (c0 = c)) as [->|Hne].
    + by rewrite cell_insert_eq.
    + rewrite cell_insert_ne by done. apply IH.
      apply elem_of_cons in Hin as [->|Hin]; done.
Qed.

Ltac cell_simpl :=
  repeat first
    [ rewrite cell_insert_eq
    | rewrite cell_insert_ne by label_neq
    | rewrite cell_delete_ne by label_neq ].

Section WithNumbers.

Variables (r : Row) (count volume total : Cell).

Lemma with_numbers_count : cell (with_numbers r count volume total) L_count = count.
Proof. unfold with_numbers. cell_simpl. done. Qed.

Lemma with_numbers_volume : cell (with_numbers r count volume total) L_volume = volume.
Proof. unfold with_numbers. cell_simpl. done. Qed.

Lemma with_numbers_total : cell (with_numbers r count volume total) L_total = total.
Proof. unfold with_numbers. cell_simpl. done. Qed.

Lemma with_numbers_code :
  cell (with_numbers r count volume total) COL_CODE = cell r COL_CODE.
Proof. unfold with_numbers, strip_row, upd. cell_simpl. done. Qed.

Lemma with_numbers_name :
  cell (with_numbers r count volume total) COL_NAME = cell r COL_NAME.
Proof. unfold with_numbers, strip_row, upd. cell_simpl. done. Qed.

Lemma with_numbers_basis :
  cell (with_numbers r count volume total) COL_BASIS = cell r COL_BASIS.
Proof. unfold with_numbers, strip_row, upd. cell_simpl. done. Qed.

End WithNumbers.

Section DeriveRow.

Variables (trade_date now : datetime) (r : Row).

Lemma derive_row_id :
  cell (derive_row trade_date now r) L_exchange_product_id = cell r COL_CODE.
Proof.
  unfold derive_row. rewrite cell_project by in_labels.
  unfold upd, rename_row, renaming. cbn [fold_left fst snd]. cell_simpl. done.
Qed.

Lemma derive_row_name :
  cell (derive_row trade_date now r) L_exchange_product_name = cell r COL_NAME.
Proof.
  unfold derive_row. rewrite cell_project by in_labels.
  unfold upd, rename_row, renaming. cbn [fold_left fst snd]. cell_simpl. done.
Qed.

Lemma derive_row_basis :
  cell (derive_row trade_date now r) L_delivery_basis_name = cell r COL_BASIS.
Proof.
  unfold derive_row. rewrite cell_project by in_labels.
  unfold upd, rename_row, renaming. cbn [fold_left fst snd]. cell_simpl. done.
Qed.

Lemma derive_row_count :
  cell (derive_row trade_date now r) L_count = cell r L_count.
Proof.
  unfold derive_row. rewrite cell_project by in_labels.
  unfold upd, rename_row, renaming. cbn [fold_left fst snd]. cell_simpl. done.
Qed.

Lemma derive_row_volume :
  cell (derive_row trade_date now r) L_volume = cell r L_volume.
Proof.
  unfold derive_row. rewrite cell_project by in_labels.
  unfold upd, rename_row, renaming. cbn [fold_left fst snd]. cell_simpl. done.
Qed.

Lemma derive_row_total :
  cell (derive_row trade_date now r) L_total = cell r L_total.
Proof.
  unfold derive_row. rewrite cell_project by in_labels.
  unfold upd, rename_row, renaming. cbn [fold_left fst snd]. cell_simpl. done.
Qed.







End DeriveRow.


(** The rows of the copy after lines 101 to 107: each is a row of the
    grid with three numbers, an integer count among them. *)

Lemma rows_stripped (f : Frame) : rows (stripped f) = List.map strip_row (rows f).
Proof. unfold stripped, col_apply. simpl. by rewrite !List.map_map. Qed.

Lemma cells_of_numeric (col : column) (c : Cell) :
  c ∈ cells_of col -> numeric c \/ c = CNaN.
Proof.
  destruct col as [values|values|values]; cbn [cells_of]; intros Hin;
    apply list_elem_of_In, in_map_iff in Hin as [x [<- _]]; simpl; auto.
  destruct x; simpl; auto.
Qed.

Lemma coerced_row (pd : Library) (counts : list Z) (f : Frame) (r : Row) :
  r ∈ rows (coerced pd counts f) ->
  exists (r0 : Row) (n : Z) (volume total : Cell),
    r0 ∈ rows f /\ n ∈ counts /\
    (numeric volume \/ volume = CNaN) /\ (numeric total \/ total = CNaN) /\
    r = with_numbers r0 (CInt n) volume total.
Proof.
  unfold coerced, measured, counted, frame_setitem. cbn [rows]. intros Hin.
  apply elem_of_zip_with in Hin as (r2 & total & -> & Hin & Htotal).
  apply elem_of_zip_with in Hin as (r1 & volume & -> & Hin & Hvolume).
  apply elem_of_zip_with in Hin as (r0' & count & -> & Hin & Hcount).
  rewrite rows_stripped in Hin.
  apply list_elem_of_In, in_map_iff in Hin as [r0 [<- Hin]].
  apply list_elem_of_In, in_map_iff in Hcount as [n [<- Hn]].
  exists r0, n, volume, total. repeat split.
  - by apply list_elem_of_In.
  - by apply list_elem_of_In.
  - by apply (cells_of_numeric _ _ Hvolume).
  - by apply (cells_of_numeric _ _ Htotal).
Qed.


Lemma gt0_CInt (n : Z) : gt0 (CInt n) = true <-> (0 < n)%Z.
Proof. simpl. apply Z.ltb_lt. Qed.

Lemma notna_numeric (c : Cell) : numeric c \/ c = CNaN -> notna c = true -> numeric c.
Proof. intros [H| ->]; [done | discriminate]. Qed.

(** A row of the batch, from the row it is derived from. *)
Lemma batch_row (pd : Library) (trade_date now : datetime) (counts : list Z)
    (f : Frame) (ro : Row) :
  incomplete f = false ->
  ro ∈ rows (batch trade_date now (coerced pd counts f)) ->
  exists (r0 : Row) (n : Z) (volume total : Cell),
    r0 ∈ rows f /\ n ∈ counts /\ (0 < n)%Z /\ numeric volume /\ numeric total /\
    ~ substring SUMMARY (str_of_cell (cell r0 COL_CODE)) /\
    ro = derive_row trade_date now (with_numbers r0 (CInt n) volume total).
Proof.
  intros Hinc Hin. rewrite rows_batch_coerced in Hin by done.
  apply list_elem_of_In, in_map_iff in Hin as [r [<- Hin]].
  apply filter_In in Hin as [Hin Hkeep]. apply list_elem_of_In in Hin.
  apply coerced_row in Hin as (r0 & n & volume & total & Hr0 & Hn & Hv & Ht & ->).
  unfold keep_row in Hkeep.
  rewrite with_numbers_count, with_numbers_volume, with_numbers_total,
    with_numbers_code in Hkeep.
  repeat (apply andb_prop in Hkeep as [Hkeep ?]).
  exists r0, n, volume, total. repeat split; try done.
  - by apply gt0_CInt.
  - by apply notna_numeric.
  - by apply notna_numeric.
  - apply contains_false_spec. by apply negb_true_iff.
Qed.

(** The rows after lines 105 to 107, position by position. *)

Lemma zip_with_numbered {R A B C S : Type} (f1 : S -> A -> S) (f2 : S -> B -> S)
    (f3 : S -> C -> S) (s : R -> S) (l : list R) :
  forall (k : list A) (v : list B) (t : list C),
    zip_with f3 (zip_with f2 (zip_with f1 (List.map s l) k) v) t
    = List.map (fun x : R * (A * (B * C)) => f3 (f2 (f1 (s x.1) x.2.1) x.2.2.1) x.2.2.2)
        (zip l (zip k (zip v t))).
Proof.
  induction l as [|x l IH]; intros k v t; [done|].
  destruct k as [|a k]; [done|]. destruct v as [|b v]; [done|].
  destruct t as [|c t]; [done|]. simpl. by rewrite IH.
Qed.

Lemma column_of_setitem_ne (c c' : str) (values : list Cell) (g : Frame) :
  c' ≠ c -> length (rows g) <= length values ->
  column_of (frame_setitem c' values g) c = column_of g c.
Proof.
  intros Hne. unfold column_of, frame_setitem. cbn [rows].
  generalize (rows g). intros rs. revert values.
  induction rs as [|r rs IH]; intros values Hlen; [done|].
  destruct values as [|v values]; [simpl in Hlen; lia|].
  simpl. rewrite IH by (simpl in Hlen; lia).
  f_equal. unfold cell. by rewrite lookup_insert_ne.
Qed.

Lemma rows_coerced (pd : Library) (counts : list Z) (f : Frame) :
  length (rows f) <= length counts ->
  length (rows f)
  <= length (cells_of (to_numeric pd (column_of (stripped f) COL_VOLUME))) ->
  rows (coerced pd counts f)
  = List.map (fun x => with_numbers x.1 (CInt x.2.1) x.2.2.1 x.2.2.2)
      (numbered pd counts f).
Proof.
  intros Hcounts Hvolumes.
  assert (Hrows : length (rows (stripped f)) = length (rows f))
    by (by rewrite rows_stripped, length_map).
  assert (Hv : column_of (counted counts f) COL_VOLUME
               = column_of (stripped f) COL_VOLUME).
  { apply column_of_setitem_ne; [label_neq|]. rewrite length_map. lia. }
  assert (Hlen : length (rows (counted counts f)) = length (rows f)).
  { unfold counted, frame_setitem. cbn [rows].
    rewrite length_zip_with, length_map. lia. }
  assert (Ht : column_of (measured pd COL_VOLUME L_volume (counted counts f)) COL_TOTAL
               = column_of (stripped f) COL_TOTAL).
  { unfold measured. rewrite column_of_setitem_ne; [|label_neq|rewrite Hv; lia].
    apply column_of_setitem_ne; [label_neq|]. rewrite length_map. lia. }
  unfold coerced. unfold measured at 1. rewrite Ht.
  unfold measured. rewrite Hv. unfold counted, frame_setitem. cbn [rows].
  rewrite rows_stripped. unfold numbered, with_numbers.
  rewrite (zip_with_fmap_r _ CInt).
  apply (zip_with_numbered (fun r (n : Z) => <[L_count := CInt n]> r)
           (fun r v => <[L_volume := v]> r) (fun r t => <[L_total := t]> r)).
Qed.

Lemma keep_row_with_numbers (r : Row) (count volume total : Cell) :
  keep_row (with_numbers r count volume total)
  = gt0 count && notna volume && notna total &&
    negb (contains SUMMARY (str_of_cell (cell r COL_CODE))).
Proof.
  unfold keep_row.
  by rewrite with_numbers_count, with_numbers_volume, with_numbers_total,
    with_numbers_code.
Qed.

Lemma astype_int_length (pd : Library) (col : column) (counts : list Z) :
  astype_int pd (fillna0 col) = Ok counts -> length counts = column_length col.
Proof.
  destruct col as [values|values|values]; cbn [fillna0 astype_int column_length].
  - by intros [= <-].
  - intros [= <-]. by rewrite length_map.
  - destruct (forallb _ _); [|done]. intros [= <-]. by rewrite !length_map.
Qed.

Lemma cells_of_length (col : column) : length (cells_of col) = column_length col.
Proof. destruct col; cbn [cells_of column_length]; by rewrite length_map. Qed.

Lemma count_column_length (pd : Library) (f : Frame) (counts : list Z) :
  keeps_length pd -> count_column pd f = Ok counts ->
  length counts = length (rows f).
Proof.
  intros Hpd Hcounts. apply astype_int_length in Hcounts.
  rewrite Hcounts, Hpd. unfold column_of. by rewrite rows_stripped, !length_map.
Qed.

(** The runs on the sample grids. *)

Lemma a100_counts :
  count_column Samples.pandas Samples.a100_frame = Ok [3; 0; 3]%Z.
Proof. vm_compute. reflexivity. Qed.

Lemma a100_batch :
  rows (batch Samples.may_day Samples.clock
          (coerced Samples.pandas [3; 0; 3]%Z Samples.a100_frame))
  = [derive_row Samples.may_day Samples.clock
       (with_numbers Samples.a100_row (CInt 3) (CFloat 60 0) (CFloat 1200000 0))].
Proof.
  rewrite rows_batch_coerced by (vm_compute; reflexivity).
  rewrite rows_coerced by (vm_compute; lia).
  unfold numbered.
  replace (cells_of (to_numeric Samples.pandas
                       (column_of (stripped Samples.a100_frame) COL_VOLUME)))
    with [CFloat 60 0; CNaN; CFloat 60 0] by (vm_compute; reflexivity).
  replace (cells_of (to_numeric Samples.pandas
                       (column_of (stripped Samples.a100_frame) COL_TOTAL)))
    with [CFloat 1200000 0; CNaN; CFloat 1200000 0] by (vm_compute; reflexivity).
  unfold Samples.a100_frame. cbn [rows zip zip_with List.map List.filter fst snd].
  rewrite !keep_row_with_numbers.
  match goal with |- context [if ?b then _ else _] =>
    replace b with true by (vm_compute; reflexivity) end.
  match goal with |- context [if ?b then _ :: _ else _] =>
    replace b with false by (vm_compute; reflexivity) end.
  match goal with |- context [if ?b then _ :: _ else _] =>
    replace b with false by (vm_compute; reflexivity) end.
  reflexivity.
Qed.

Lemma a100_run :
  exists h',
    process_dataframe Samples.pandas 0 Samples.may_day Samples.clock
      [Samples.a100_frame] = (Ok (Some 7), h') /\
    h' !! 7 = Some (batch Samples.may_day Samples.clock
                      (coerced Samples.pandas [3; 0; 3]%Z Samples.a100_frame)).
Proof.
  eexists. rewrite (process_dataframe_run _ _ _ _ _ Samples.a100_frame);
    [| reflexivity | vm_compute; reflexivity].
  rewrite a100_counts. split; reflexivity.
Qed.

Lemma negative_volume_counts :
  count_column Samples.pandas Samples.negative_volume_frame = Ok [1%Z].
Proof. vm_compute. reflexivity. Qed.

Lemma negative_volume_batch :
  rows (batch Samples.may_day Samples.clock
          (coerced Samples.pandas [1%Z] Samples.negative_volume_frame))
  = [derive_row Samples.may_day Samples.clock
       (with_numbers Samples.negative_volume_row (CInt 1) (CInt (-5)) (CInt 100))].
Proof.
  rewrite rows_batch_coerced by (vm_compute; reflexivity).
  rewrite rows_coerced by (vm_compute; lia).
  unfold numbered.
  replace (cells_of (to_numeric Samples.pandas
                       (column_of (stripped Samples.negative_volume_frame) COL_VOLUME)))
    with [CInt (-5)] by (vm_compute; reflexivity).
  replace (cells_of (to_numeric Samples.pandas
                       (column_of (stripped Samples.negative_volume_frame) COL_TOTAL)))
    with [CInt 100] by (vm_compute; reflexivity).
  unfold Samples.negative_volume_frame.
  cbn [rows zip zip_with List.map List.filter fst snd].
  rewrite keep_row_with_numbers.
  match goal with |- context [if ?b then _ else _] =>
    replace b with true by (vm_compute; reflexivity) end.
  reflexivity.
Qed.

(** C6. A count cell that reads "Infinity" is coerced to an infinite
    float; [fillna(0)] leaves it and [astype(int)] raises on it. On this
    grid [process_dataframe] raises [IntCastingNaNError] at line 105: no
    batch is returned, so the row is neither excluded nor kept. A count
    that fails coercion ("n/a") does become 0, and its row is left out of
    the batch that is returned. *)
Theorem process_dataframe_infinite_count_raises :
  to_numeric Samples.pandas
    (column_of (stripped Samples.infinite_count_frame) COL_COUNT)
  = Float64 [Infinite false] /\
  (process_dataframe Samples.pandas 0 Samples.may_day Samples.clock
     [Samples.infinite_count_frame]).1
  = Raise IntCastingNaNError /\
  count_column Samples.pandas Samples.unreadable_count_frame = Ok [0%Z] /\
  exists h',
    process_dataframe Samples.pandas 0 Samples.may_day Samples.clock
      [Samples.unreadable_count_frame] = (Ok (Some 7), h') /\
    h' !! 7 = Some (MkFrame output_columns []).
Proof.
  split; [vm_compute; reflexivity|]. split; [|split].
  - rewrite (process_dataframe_run _ _ _ _ _ Samples.infinite_count_frame);
      [| reflexivity | vm_compute; reflexivity].
    replace (count_column Samples.pandas Samples.infinite_count_frame)
      with (@Raise (list Z) IntCastingNaNError) by (vm_compute; reflexivity).
    reflexivity.
  - vm_compute. reflexivity.
  - eexists.
    rewrite (process_dataframe_run _ _ _ _ _ Samples.unreadable_count_frame);
      [| reflexivity | vm_compute; reflexivity].
    replace (count_column Samples.pandas Samples.unreadable_count_frame)
      with (@Ok (list Z) [0%Z]) by (vm_compute; reflexivity).
    split; [reflexivity|].
    change (Some (batch Samples.may_day Samples.clock
                    (coerced Samples.pandas [0%Z] Samples.unreadable_count_frame))
            = Some (MkFrame output_columns [])).
    do 2 f_equal.
Qed.

Lemma process_dataframe_records_ok_rows (pd : Library) (df : loc)
    (trade_date now : datetime) (h h' : Store) (out : loc) (fo : Frame) :
  process_dataframe pd df trade_date now h = (Ok (Some out), h') ->
  h' !! out = Some fo ->
  Forall record_ok (rows fo).
Proof.
  intros Hrun Hout.
  apply process_dataframe_returns in Hrun as (f & counts & Hdf & Hinc & Hcounts & Hbatch).
  rewrite Hbatch in Hout. injection Hout as <-.
  apply Forall_forall. intros ro Hin.
  apply batch_row in Hin as (r0 & n & volume & total & _ & _ & Hn & Hv & Ht & Hs & ->);
    [|done].
  unfold record_ok.
  rewrite derive_row_id, derive_row_count, derive_row_volume, derive_row_total.
  rewrite with_numbers_code, with_numbers_count, with_numbers_volume,
    with_numbers_total.
  repeat split; eauto.
Qed.

(** C7, as amended. Every record of a batch [process_dataframe] returns
    has an integer count above 0, a volume and a total that are present
    and numeric, and a product id that does not contain the summary
    word; nothing bounds the volume from below. *)
Theorem process_dataframe_records_ok (pd : Library) (df : loc)
    (trade_date now : datetime) (h h' : Store) (out : loc) (fo : Frame) :
  process_dataframe pd df trade_date now h = (Ok (Some out), h') ->
  h' !! out = Some fo ->
  Forall record_ok (rows fo).
Proof. apply process_dataframe_records_ok_rows. Qed.

Lemma process_dataframe_records_ok_witness :
  rows (batch Samples.may_day Samples.clock
          (coerced Samples.pandas [3; 0; 3]%Z Samples.a100_frame))
  = [derive_row Samples.may_day Samples.clock
       (with_numbers Samples.a100_row (CInt 3) (CFloat 60 0) (CFloat 1200000 0))] /\
  Forall record_ok
    (rows (batch Samples.may_day Samples.clock
             (coerced Samples.pandas [3; 0; 3]%Z Samples.a100_frame))).
Proof.
  split; [exact a100_batch|].
  destruct a100_run as [h' [Hrun Hout]].
  exact (process_dataframe_records_ok Samples.pandas 0 Samples.may_day Samples.clock
           [Samples.a100_frame] h' 7 _ Hrun Hout).
Defined.

(** C7, as stated, fails: a row whose volume cell reads "-5" is output
    with volume -5, which breaks the invariant's [volume >= 0]. *)
Lemma process_dataframe_negative_volume :
  exists (out : loc) (h' : Store) (fo : Frame) (r : Row),
    process_dataframe Samples.pandas 0 Samples.may_day Samples.clock
      [Samples.negative_volume_frame]
    = (Ok (Some out), h') /\
    h' !! out = Some fo /\ r ∈ rows fo /\
    cell r L_volume = CInt (-5) /\ ~ record_invariant r.
Proof.
  destruct (process_dataframe_batch Samples.pandas 0 Samples.may_day Samples.clock
              [Samples.negative_volume_frame] Samples.negative_volume_frame [1%Z])
    as [out [h' [Hrun Hout]]];
    [reflexivity | vm_compute; reflexivity | exact negative_volume_counts |].
  eexists out, h', _, _. split; [exact Hrun|]. split; [exact Hout|].
  rewrite negative_volume_batch.
  split; [apply list_elem_of_singleton; reflexivity|].
  rewrite derive_row_volume, with_numbers_volume.
  split; [reflexivity|].
  intros [_ Hneg]. rewrite derive_row_volume, with_numbers_volume in Hneg.
  simpl in Hneg. lia.
Qed.

Lemma edge_counts :
  count_column Samples.pandas Cases.edge_frame = Ok [INT64_MIN; 1; 1]%Z.
Proof. vm_compute; reflexivity. Qed.

Lemma edge_batch :
  rows (batch Samples.may_day Samples.clock
          (coerced Samples.pandas [INT64_MIN; 1; 1]%Z Cases.edge_frame))
  = [derive_row Samples.may_day Samples.clock
       (with_numbers
          (Samples.grid_row (Samples.text "A592UFM060F") (Samples.text "Дизель")
             (Samples.text "ст. Тест") (Samples.text "inf")
             (Samples.text "100") (Samples.text "1"))
          (CInt 1) (CInf false) (CInt 100))].
Proof.
  rewrite rows_batch_coerced by (vm_compute; reflexivity).
  rewrite rows_coerced by (vm_compute; lia).
  unfold numbered.
  replace (cells_of (to_numeric Samples.pandas
                       (column_of (stripped Cases.edge_frame) COL_VOLUME)))
    with [CFloat 60 0; CInf false; CNaN] by (vm_compute; reflexivity).
  replace (cells_of (to_numeric Samples.pandas
                       (column_of (stripped Cases.edge_frame) COL_TOTAL)))
    with [CInt 100; CInt 100; CInt 100] by (vm_compute; reflexivity).
  unfold Cases.edge_frame. cbn [rows zip zip_with List.map List.filter fst snd].
  rewrite !keep_row_with_numbers.
  match goal with |- context [if ?b then _ else _] =>
    replace b with false by (vm_compute; reflexivity) end.
  match goal with |- context [if ?b then _ else _] =>
    replace b with true by (vm_compute; reflexivity) end.
  match goal with |- context [if ?b then _ :: _ else _] =>
    replace b with false by (vm_compute; reflexivity) end.
  reflexivity.
Qed.

(** Numbers at the edges of the dtypes. A count of 2 ^ 63 makes the
    column [uint64] and wraps to a negative [int64], so its row is left
    out; a volume "inf" is a number, so its row is kept, with an infinite
    volume; a volume "1e400" is beyond [float64], hence missing, and its
    row is left out. *)
Example process_dataframe_edge_numbers :
  count_column Samples.pandas Cases.edge_frame = Ok [INT64_MIN; 1; 1]%Z /\
  exists (out : loc) (h' : Store) (fo : Frame) (r : Row),
    process_dataframe Samples.pandas 0 Samples.may_day Samples.clock
      [Cases.edge_frame] = (Ok (Some out), h') /\
    h' !! out = Some fo /\ rows fo = [r] /\
    cell r L_exchange_product_id = Samples.text "A592UFM060F" /\
    cell r L_count = CInt 1 /\ cell r L_volume = CInf false /\
    record_ok r.
Proof.
  split; [exact edge_counts|].
  destruct (process_dataframe_batch Samples.pandas 0 Samples.may_day Samples.clock
              [Cases.edge_frame] Cases.edge_frame [INT64_MIN; 1; 1]%Z)
    as [out [h' [Hrun Hout]]];
    [reflexivity | vm_compute; reflexivity | exact edge_counts |].
  pose proof (process_dataframe_records_ok_rows Samples.pandas 0 Samples.may_day
                Samples.clock [Cases.edge_frame] h' out _ Hrun Hout) as Hok.
  rewrite edge_batch in Hok. apply Forall_cons in Hok as [Hok _].
  eexists out, h', _, _. split; [exact Hrun|]. split; [exact Hout|].
  split; [exact edge_batch|].
  rewrite derive_row_id, derive_row_count, derive_row_volume.
  rewrite with_numbers_code, with_numbers_count, with_numbers_volume.
  split; [vm_compute; reflexivity|].
  split; [reflexivity|]. split; [reflexivity | exact Hok].
Qed.


(** C9. When one of the six expected columns is absent from the grid,
    [process_dataframe] returns [None] without raising, and allocates
    nothing. *)
Theorem process_dataframe_missing_column (pd : Library) (df : loc)
    (trade_date now : datetime) (h : Store) (f : Frame) (c : str) :
  h !! df = Some f -> c ∈ expected_columns -> c ∉ columns f ->
  process_dataframe pd df trade_date now h = (Ok None, h).
Proof.
  intros Hdf Hc Hn. apply (process_dataframe_absent pd df trade_date now h f Hdf).
  by apply (expected_true f c).
Qed.

Lemma process_dataframe_missing_column_witness :
  process_dataframe Samples.pandas 0 Samples.may_day Samples.clock
    [Samples.five_column_frame]
  = (Ok None, [Samples.five_column_frame]).
Proof.
  apply (process_dataframe_missing_column Samples.pandas 0 Samples.may_day
           Samples.clock [Samples.five_column_frame] Samples.five_column_frame
           COL_COUNT).
  - reflexivity.
  - in_labels.
  - apply (bool_decide_unpack _). vm_compute. exact I.
Defined.

(** C10. A call leaves the frame it was given as it was, and every
    other frame of the store with it: whatever it returns, the store
    after the call extends the store before it. *)
Theorem process_dataframe_preserves_input (pd : Library) (df : loc)
    (trade_date now : datetime) (h : Store) :
  (process_dataframe pd df trade_date now h).2 !! df = h !! df /\
  h `prefix_of` (process_dataframe pd df trade_date now h).2.
Proof.
  destruct (h !! df) as [f|] eqn:Hdf.
  - destruct (incomplete f) eqn:Hex.
    + rewrite (process_dataframe_absent pd df trade_date now h f Hdf Hex). simpl.
      by rewrite Hdf.
    + rewrite (process_dataframe_run pd df trade_date now h f Hdf Hex).
      assert (Hlt : df < length h) by (by apply lookup_lt_Some in Hdf).
      destruct (count_column pd f); simpl; split;
        try (by apply prefix_app_r); by rewrite lookup_app_l.
  - rewrite (process_dataframe_unbound pd df trade_date now h Hdf). simpl.
    by rewrite Hdf.
Qed.

(** ** Persister *)

(** C1. A conflict on one row does abort the batch. The session of the
    source checks nothing when a record is staged, so with a store that
    admits a product id once, the repeated id of the batch A, B, A, C is
    found when the commit flushes the pending unit of work: the commit
    raises, outside the [try], [save_to_db] raises with it, and none of
    the four rows is stored. And when the store does signal the conflict
    at staging, the rollback that follows empties the whole pending unit
    of work: A and B, staged before, are lost and only C is stored. *)
Theorem save_to_db_conflict_aborts_batch :
  (fun out : result unit * Session => (out.1, trace out.2, committed out.2))
    (save_to_db Samples.unique_at_flush_backend Samples.repeated_id_frame [])
  = (Raise IntegrityError,
     [EvAdd (Samples.record "A100ANK060F") false;
      EvAdd (Samples.record "A592UFM060F") false;
      EvAdd (Samples.record "A100ANK060F") false;
      EvAdd (Samples.record "A10KZLY060W") false; EvCommit true],
     []) /\
  (fun out : result unit * Session => (out.1, trace out.2, committed out.2))
    (save_to_db Samples.unique_id_backend Samples.repeated_id_frame [])
  = (Ok tt,
     [EvAdd (Samples.record "A100ANK060F") false;
      EvAdd (Samples.record "A592UFM060F") false;
      EvAdd (Samples.record "A100ANK060F") true; EvRollback;
      EvAdd (Samples.record "A10KZLY060W") false; EvCommit false],
     [Samples.record "A10KZLY060W"]).
Proof. split; vm_compute; reflexivity. Qed.

(** The constructor runs outside the [try]: on the grid as extracted,
    whose labels are no attributes of the class, [save_to_db] raises
    [TypeError] before the session is asked anything. *)
Example save_to_db_rejects_grid :
  (fun out : result unit * Session => (out.1, trace out.2, committed out.2))
    (save_to_db Cases.quiet_backend Samples.a100_frame [])
  = (Raise TypeError, [], []).
Proof. vm_compute. reflexivity. Qed.

(** * Further properties *)

(** ** Bulletin Locator, page by page *)

Lemma scan_links_cons (link : Anchor) (rest : list Anchor) (data : list entry)
    (found_new : bool) :
  scan_links (link :: rest) data found_new
  = match link_date link with
    | None => scan_links rest data found_new
    | Some (Raise e) => Raise e
    | Some (Ok d) =>
        if (year d <? START_YEAR)%N then Ok (Returned data)
        else if LIMIT_FILES <=? length (data ++ [(BASE_URL ++ a_href link, d)])
             then Ok (Next (data ++ [(BASE_URL ++ a_href link, d)]) true)
             else scan_links rest (data ++ [(BASE_URL ++ a_href link, d)]) true
    end.
Proof.
  unfold link_date. cbn [scan_links].
  destruct (contains BULLETIN_TITLE (a_text link)); [|done].
  destruct (a_next_span link) as [span_text|]; [|done].
  destruct (strip span_text) as [|c t]; [done|].
  destruct (search_date (c :: t)) as [[[d m] y]|]; [|done].
  by destruct (datetime_ymd _ _ _).
Qed.

Lemma entries_of_cons (link : Anchor) (rest : list Anchor) :
  entries_of (link :: rest) = entry_of link ++ entries_of rest.
Proof. done. Qed.

Lemma entries_of_app (pre post : list Anchor) :
  entries_of (pre ++ post) = entries_of pre ++ entries_of post.
Proof. unfold entries_of. by rewrite flat_map_app. Qed.

(** Good links are all taken, as long as the limit is not reached. *)
Lemma scan_links_good (links : list Anchor) :
  forall (data : list entry) (found_new : bool),
    Forall good_link links ->
    length data + length (entries_of links) < LIMIT_FILES ->
    scan_links links data found_new
    = Ok (Next (data ++ entries_of links)
               (found_new || bool_decide (entries_of links <> []))).
Proof.
  induction links as [|link rest IH]; intros data fn Hgood Hlen.
  - cbn [scan_links]. unfold entries_of. simpl.
    by rewrite app_nil_r, orb_false_r.
  - apply Forall_cons in Hgood as [Hlink Hrest].
    rewrite scan_links_cons, entries_of_cons. rewrite entries_of_cons in Hlen.
    unfold good_link in Hlink. unfold entry_of in *.
    destruct (link_date link) as [[d|e]|]; [| done |].
    + apply N.ltb_ge in Hlink. rewrite Hlink.
      rewrite length_app in Hlen. simpl in Hlen.
      destruct (LIMIT_FILES <=? length (data ++ [(BASE_URL ++ a_href link, d)]))
        eqn:Hfull.
      { apply Nat.leb_le in Hfull. rewrite length_app in Hfull. simpl in Hfull. lia. }
      rewrite IH; [| done | rewrite length_app; simpl; lia].
      rewrite <- app_assoc. simpl. by rewrite orb_true_r.
    + simpl. by apply IH.
Qed.

(** The links in front of the first one that ends the scan. *)
Lemma scan_links_prefix (pre : list Anchor) (link : Anchor) (post : list Anchor)
    (data : list entry) (found_new : bool) :
  Forall good_link pre ->
  length data + length (entries_of pre) < LIMIT_FILES ->
  scan_links (pre ++ link :: post) data found_new
  = scan_links (link :: post) (data ++ entries_of pre)
      (found_new || bool_decide (entries_of pre <> [])).
Proof.
  revert data found_new.
  induction pre as [|p pre IH]; intros data fn Hgood Hlen.
  - simpl. unfold entries_of. simpl. by rewrite app_nil_r, orb_false_r.
  - apply Forall_cons in Hgood as [Hp Hpre].
    rewrite <- app_comm_cons, scan_links_cons, entries_of_cons.
    rewrite entries_of_cons in Hlen.
    unfold good_link in Hp. unfold entry_of in *.
    destruct (link_date p) as [[d|e]|]; [| done |].
    + apply N.ltb_ge in Hp. rewrite Hp.
      rewrite length_app in Hlen. simpl in Hlen.
      destruct (LIMIT_FILES <=? length (data ++ [(BASE_URL ++ a_href p, d)]))
        eqn:Hfull.
      { apply Nat.leb_le in Hfull. rewrite length_app in Hfull. simpl in Hfull. lia. }
      rewrite IH; [| done | rewrite length_app; simpl; lia].
      rewrite <- app_assoc. simpl. by rewrite orb_true_r.
    + simpl. by apply IH.
Qed.

Lemma good_pages_length (pages : list (list Anchor)) :
  Forall good_page pages -> length pages <= length (flat_map entries_of pages).
Proof.
  induction 1 as [|p pages [_ Hne] _ IH]; simpl; [lia|].
  rewrite length_app. destruct (entries_of p); [done | simpl; lia].
Qed.

(** The loop over a run of good pages: it takes all their entries and
    goes on with the page after them. *)
Lemma pages_loop_good (session : network) (pages : list (list Anchor)) :
  forall (fuel : nat) (page_number : N) (data : list entry),
    served session page_number pages ->
    Forall good_page pages ->
    length data + length (flat_map entries_of pages) < LIMIT_FILES ->
    pages_loop (length pages + fuel) session page_number data
    = pages_loop fuel session (page_number + N.of_nat (length pages))
        (data ++ flat_map entries_of pages).
Proof.
  induction pages as [|links others IH]; intros fuel page data Hserved Hgood Hlen.
  - simpl. by rewrite app_nil_r, N.add_0_r.
  - destruct Hserved as [Hfetch Hserved].
    apply Forall_cons in Hgood as [[Hlinks Hne] Hothers].
    cbn [flat_map] in *. rewrite length_app in Hlen.
    cbn [length Nat.add pages_loop].
    replace (length data <? LIMIT_FILES) with true by (symmetry; apply Nat.ltb_lt; lia).
    rewrite Hfetch, scan_links_good by (done || lia).
    rewrite bool_decide_true by done. cbn [orb negb].
    rewrite IH; [| done | done | rewrite length_app; lia].
    rewrite <- app_assoc. f_equal. rewrite Nat2N.inj_succ. lia.
Qed.

(** One more turn of the loop, by what the next page holds. *)

Lemma pages_loop_no_entry (session : network) (fuel : nat) (page_number : N)
    (data : list entry) (links : list Anchor) :
  length data < LIMIT_FILES ->
  fetch_html session (page_url page_number) = Ok links ->
  Forall good_link links -> entries_of links = [] ->
  pages_loop (S fuel) session page_number data = Some (Ok data).
Proof.
  intros Hlen Hfetch Hgood Hnone. cbn [pages_loop].
  replace (length data <? LIMIT_FILES) with true by (symmetry; by apply Nat.ltb_lt).
  rewrite Hfetch, scan_links_good by (done || rewrite Hnone; simpl; lia).
  rewrite Hnone, app_nil_r. by rewrite bool_decide_false by (intros H; by apply H).
Qed.

Lemma pages_loop_cutoff (session : network) (fuel : nat) (page_number : N)
    (data : list entry) (pre : list Anchor) (link : Anchor) (post : list Anchor)
    (d : datetime) :
  fetch_html session (page_url page_number) = Ok (pre ++ link :: post) ->
  Forall good_link pre ->
  length data + length (entries_of pre) < LIMIT_FILES ->
  link_date link = Some (Ok d) -> (year d < START_YEAR)%N ->
  pages_loop (S fuel) session page_number data
  = Some (Ok (data ++ entries_of pre)).
Proof.
  intros Hfetch Hgood Hlen Hdate Hold. cbn [pages_loop].
  replace (length data <? LIMIT_FILES) with true by (symmetry; apply Nat.ltb_lt; lia).
  rewrite Hfetch, scan_links_prefix, scan_links_cons, Hdate by done.
  apply N.ltb_lt in Hold. by rewrite Hold.
Qed.

Lemma pages_loop_fetch_fails (session : network) (fuel : nat) (page_number : N)
    (data : list entry) (e : exn) :
  length data < LIMIT_FILES ->
  fetch_html session (page_url page_number) = Raise e ->
  pages_loop (S fuel) session page_number data = Some (Raise e).
Proof.
  intros Hlen Hfetch. cbn [pages_loop].
  replace (length data <? LIMIT_FILES) with true by (symmetry; by apply Nat.ltb_lt).
  by rewrite Hfetch.
Qed.

Lemma pages_loop_bad_date (session : network) (fuel : nat) (page_number : N)
    (data : list entry) (pre : list Anchor) (link : Anchor) (post : list Anchor)
    (e : exn) :
  fetch_html session (page_url page_number) = Ok (pre ++ link :: post) ->
  Forall good_link pre ->
  length data + length (entries_of pre) < LIMIT_FILES ->
  link_date link = Some (Raise e) ->
  pages_loop (S fuel) session page_number data = Some (Raise e).
Proof.
  intros Hfetch Hgood Hlen Hdate. cbn [pages_loop].
  replace (length data <? LIMIT_FILES) with true by (symmetry; apply Nat.ltb_lt; lia).
  by rewrite Hfetch, scan_links_prefix, scan_links_cons, Hdate by done.
Qed.

Lemma pages_loop_limit (session : network) (fuel : nat) (page_number : N)
    (data : list entry) (pre : list Anchor) (link : Anchor) (post : list Anchor)
    (d : datetime) :
  fetch_html session (page_url page_number) = Ok (pre ++ link :: post) ->
  Forall good_link pre ->
  S (length data + length (entries_of pre)) = LIMIT_FILES ->
  link_date link = Some (Ok d) -> (START_YEAR <= year d)%N ->
  pages_loop (S (S fuel)) session page_number data
  = Some (Ok (data ++ entries_of pre ++ [(BASE_URL ++ a_href link, d)])).
Proof.
  intros Hfetch Hgood Hlen Hdate Hrecent. cbn [pages_loop].
  replace (length data <? LIMIT_FILES) with true by (symmetry; apply Nat.ltb_lt; lia).
  rewrite Hfetch, scan_links_prefix, scan_links_cons, Hdate by (done || lia).
  apply N.ltb_ge in Hrecent. rewrite Hrecent.
  assert (Hfull : length ((data ++ entries_of pre) ++ [(BASE_URL ++ a_href link, d)])
                  = LIMIT_FILES)
    by (rewrite !length_app; simpl; lia).
  rewrite Hfull, Nat.leb_refl. cbn [negb].
  rewrite Hfull, Nat.ltb_irrefl. by rewrite <- app_assoc.
Qed.

Lemma served_app (session : network) (pages : list (list Anchor)) :
  forall (page_number : N) (links : list Anchor),
    served session page_number (pages ++ [links]) ->
    served session page_number pages /\
    fetch_html session (page_url (page_number + N.of_nat (length pages))) = Ok links.
Proof.
  induction pages as [|p pages IH]; intros page links H.
  - destruct H as [H _]. simpl. by rewrite N.add_0_r.
  - destruct H as [Hp H]. apply IH in H as [H Hlast]. repeat split; try done.
    rewrite <- Hlast. do 2 f_equal. cbn [length]. rewrite Nat2N.inj_succ. lia.
Qed.

(** The fuel of [get_bulletin_urls], split at a run of good pages. *)
Lemma get_bulletin_urls_after (session : network) (pages : list (list Anchor)) :
  served session 1 pages -> Forall good_page pages ->
  length (flat_map entries_of pages) < LIMIT_FILES ->
  get_bulletin_urls session
  = pages_loop (S (S (LIMIT_FILES - S (length pages)))) session
      (1 + N.of_nat (length pages)) (flat_map entries_of pages).
Proof.
  intros Hserved Hgood Hlen. unfold get_bulletin_urls.
  pose proof (good_pages_length pages Hgood) as Hpages.
  replace (S LIMIT_FILES)
    with (length pages + S (S (LIMIT_FILES - S (length pages)))) by lia.
  by rewrite (pages_loop_good session pages _ 1%N []).
Qed.

(** X1. After a run of pages that each list at least one entry, the first
    page without one ends the paging: the entries of the pages before it
    are returned, in listing order, and no further page is asked for. *)
Theorem get_bulletin_urls_stops_at_page_without_entry (session : network)
    (pages : list (list Anchor)) (last_page : list Anchor) :
  served session 1 (pages ++ [last_page]) ->
  Forall good_page pages ->
  length (flat_map entries_of pages) < LIMIT_FILES ->
  Forall good_link last_page -> entries_of last_page = [] ->
  get_bulletin_urls session = Some (Ok (flat_map entries_of pages)).
Proof.
  intros Hserved Hgood Hlen Hlast Hnone.
  apply served_app in Hserved as [Hserved Hfetch].
  rewrite (get_bulletin_urls_after session pages) by done.
  by apply (pages_loop_no_entry session _ _ _ last_page).
Qed.

Ltac good_links := repeat constructor; vm_compute; done.

Lemma get_bulletin_urls_stops_at_page_without_entry_witness :
  get_bulletin_urls Samples.three_links_session
  = Some (Ok (flat_map entries_of
                [[Samples.bulletin_link "01.05.2024"; Samples.bulletin_link "24.04.2024";
                  Samples.bulletin_link "17.04.2024"]])).
Proof.
  apply (get_bulletin_urls_stops_at_page_without_entry Samples.three_links_session
           [[Samples.bulletin_link "01.05.2024"; Samples.bulletin_link "24.04.2024";
             Samples.bulletin_link "17.04.2024"]] []).
  - repeat split; reflexivity.
  - good_links.
  - vm_compute. lia.
  - constructor.
  - reflexivity.
Defined.

(** X2. A link dated before [START_YEAR] ends the call at once: what was
    collected before it is returned, and neither the links after it nor
    any further page are looked at. *)
Theorem get_bulletin_urls_cutoff (session : network)
    (pages : list (list Anchor)) (pre : list Anchor) (link : Anchor)
    (post : list Anchor) (d : datetime) :
  served session 1 (pages ++ [pre ++ link :: post]) ->
  Forall good_page pages -> Forall good_link pre ->
  length (flat_map entries_of pages) + length (entries_of pre) < LIMIT_FILES ->
  link_date link = Some (Ok d) -> (year d < START_YEAR)%N ->
  get_bulletin_urls session
  = Some (Ok (flat_map entries_of pages ++ entries_of pre)).
Proof.
  intros Hserved Hgood Hpre Hlen Hdate Hold.
  apply served_app in Hserved as [Hserved Hfetch].
  rewrite (get_bulletin_urls_after session pages) by (done || lia).
  by apply (pages_loop_cutoff session _ _ _ pre link post d).
Qed.

Lemma get_bulletin_urls_cutoff_witness :
  get_bulletin_urls Cases.cutoff_session
  = Some (Ok (flat_map entries_of [] ++ entries_of [Samples.bulletin_link "01.05.2024"])).
Proof.
  apply (get_bulletin_urls_cutoff Cases.cutoff_session []
           [Samples.bulletin_link "01.05.2024"] (Samples.bulletin_link "15.02.2022")
           [Samples.bulletin_link "17.04.2024"] (Datetime 2022 2 15 0 0 0 0)).
  - repeat split; reflexivity.
  - constructor.
  - good_links.
  - vm_compute. lia.
  - reflexivity.
  - reflexivity.
Defined.

(** X4. When fetching a page raises, the call raises the same exception,
    and the entries collected from the pages before it are not returned. *)
Theorem get_bulletin_urls_fetch_failure (session : network)
    (pages : list (list Anchor)) (e : exn) :
  served session 1 pages -> Forall good_page pages ->
  length (flat_map entries_of pages) < LIMIT_FILES ->
  fetch_html session (page_url (1 + N.of_nat (length pages))) = Raise e ->
  get_bulletin_urls session = Some (Raise e).
Proof.
  intros Hserved Hgood Hlen Hfetch.
  rewrite (get_bulletin_urls_after session pages) by done.
  by apply pages_loop_fetch_fails.
Qed.

Lemma get_bulletin_urls_fetch_failure_witness :
  get_bulletin_urls Cases.failing_page_session
  = Some (Raise (ClientResponseError 500)).
Proof.
  apply (get_bulletin_urls_fetch_failure Cases.failing_page_session
           [[Samples.bulletin_link "01.05.2024"; Samples.bulletin_link "24.04.2024";
             Samples.bulletin_link "17.04.2024"]]).
  - repeat split; reflexivity.
  - good_links.
  - vm_compute. lia.
  - reflexivity.
Defined.

(** X5. A link whose date text matches the pattern but is no date of the
    calendar makes the call raise, on whatever page and after whatever
    entries it is met. *)
Theorem get_bulletin_urls_bad_date (session : network)
    (pages : list (list Anchor)) (pre : list Anchor) (link : Anchor)
    (post : list Anchor) (e : exn) :
  served session 1 (pages ++ [pre ++ link :: post]) ->
  Forall good_page pages -> Forall good_link pre ->
  length (flat_map entries_of pages) + length (entries_of pre) < LIMIT_FILES ->
  link_date link = Some (Raise e) ->
  get_bulletin_urls session = Some (Raise e).
Proof.
  intros Hserved Hgood Hpre Hlen Hdate.
  apply served_app in Hserved as [Hserved Hfetch].
  rewrite (get_bulletin_urls_after session pages) by (done || lia).
  by apply (pages_loop_bad_date session _ _ _ pre link post e).
Qed.

Lemma get_bulletin_urls_bad_date_witness :
  get_bulletin_urls Samples.bad_date_session = Some (Raise ValueError).
Proof.
  apply (get_bulletin_urls_bad_date Samples.bad_date_session []
           [Samples.bulletin_link "01.05.2024"] (Samples.bulletin_link "31.02.2022")
           [Samples.bulletin_link "17.04.2024"]).
  - repeat split; reflexivity.
  - constructor.
  - good_links.
  - vm_compute. lia.
  - reflexivity.
Defined.

(** X3. The link that brings the number of entries to [LIMIT_FILES] is the
    last one read: the links after it and the pages after its page play
    no part in the result. *)
Theorem get_bulletin_urls_limit (session : network)
    (pages : list (list Anchor)) (pre : list Anchor) (link : Anchor)
    (post : list Anchor) (d : datetime) :
  served session 1 (pages ++ [pre ++ link :: post]) ->
  Forall good_page pages -> Forall good_link pre ->
  S (length (flat_map entries_of pages) + length (entries_of pre)) = LIMIT_FILES ->
  link_date link = Some (Ok d) -> (START_YEAR <= year d)%N ->
  get_bulletin_urls session
  = Some (Ok (flat_map entries_of pages ++ entries_of pre
              ++ [(BASE_URL ++ a_href link, d)])).
Proof.
  intros Hserved Hgood Hpre Hlen Hdate Hrecent.
  apply served_app in Hserved as [Hserved Hfetch].
  rewrite (get_bulletin_urls_after session pages) by (done || lia).
  by apply (pages_loop_limit session _ _ _ pre link post d).
Qed.

Lemma get_bulletin_urls_limit_witness :
  get_bulletin_urls Cases.crowded_session
  = Some (Ok (flat_map entries_of []
              ++ entries_of (repeat (Samples.bulletin_link "01.05.2024") 19)
              ++ [(BASE_URL ++ a_href (Samples.bulletin_link "01.05.2024"),
                   Datetime 2024 5 1 0 0 0 0)])).
Proof.
  apply (get_bulletin_urls_limit Cases.crowded_session []
           (repeat (Samples.bulletin_link "01.05.2024") 19)
           (Samples.bulletin_link "01.05.2024")
           (repeat (Samples.bulletin_link "01.05.2024") 5)
           (Datetime 2024 5 1 0 0 0 0)).
  - repeat split; reflexivity.
  - constructor.
  - good_links.
  - vm_compute. reflexivity.
  - reflexivity.
  - vm_compute. done.
Defined.

(** Where the entries come from. *)

Lemma scan_links_from (P : entry -> Prop) (links : list Anchor) :
  forall (data : list entry) (found_new : bool),
    (forall link d, link ∈ links -> link_date link = Some (Ok d) ->
       P (BASE_URL ++ a_href link, d)) ->
    Forall P data ->
    match scan_links links data found_new with
    | Ok (Next data' _) | Ok (Returned data') => Forall P data'
    | Raise _ => True
    end.
Proof.
  induction links as [|link rest IH]; intros data fn Hlinks Hdata.
  - done.
  - rewrite scan_links_cons.
    assert (Hrest : forall l d, l ∈ rest -> link_date l = Some (Ok d) ->
                      P (BASE_URL ++ a_href l, d)).
    { intros l d Hl. apply Hlinks. by right. }
    destruct (link_date link) as [[d|e]|] eqn:Hdate; [| done | by apply IH].
    destruct (year d <? START_YEAR)%N; [done|].
    assert (Hdata' : Forall P (data ++ [(BASE_URL ++ a_href link, d)])).
    { apply Forall_app. split; [done|]. constructor; [|done].
      apply Hlinks; [by left | done]. }
    destruct (LIMIT_FILES <=? _); [done | by apply IH].
Qed.

Lemma pages_loop_from (session : network) (P : entry -> Prop) (fuel : nat) :
  forall (page_number : N) (data : list entry),
    (forall n links link d,
       fetch_html session (page_url n) = Ok links -> link ∈ links ->
       link_date link = Some (Ok d) -> P (BASE_URL ++ a_href link, d)) ->
    Forall P data ->
    match pages_loop fuel session page_number data with
    | Some (Ok data') => Forall P data'
    | _ => True
    end.
Proof.
  induction fuel as [|fuel IH]; intros page data HP Hdata; [done|].
  cbn [pages_loop]. destruct (length data <? LIMIT_FILES); [|done].
  destruct (fetch_html session (page_url page)) as [html|e] eqn:Hfetch; [|done].
  pose proof (scan_links_from P html data false
                (fun link d => HP page html link d Hfetch) Hdata) as Hscan.
  destruct (scan_links html data false) as [[data' fn'|data']|e]; [| done | done].
  destruct fn'; cbn [negb]; [by apply IH | done].
Qed.

(** X6. Every entry returned was read from a link of a page the session
    served: its URL is [BASE_URL] followed by the link's [href] and its
    date is the one the link's span gives. *)
Theorem get_bulletin_urls_from_listing (session : network) :
  exists r, get_bulletin_urls session = Some r /\
    match r with
    | Ok data => Forall (from_listing session) data
    | Raise _ => True
    end.
Proof.
  destruct (pages_loop_inv session (S LIMIT_FILES) 1%N []) as [r [Hr _]];
    [cbn [length]; lia | done | cbn [length]; lia |].
  exists r. split; [done|].
  pose proof (pages_loop_from session (from_listing session) (S LIMIT_FILES) 1%N []) as H.
  unfold get_bulletin_urls in Hr. rewrite Hr in H. destruct r; [|done].
  apply H; [|done]. intros n links link d Hfetch Hin Hdate.
  by exists n, links, link, d.
Qed.

Lemma datetime_ymd_calendar (y m d : N) (t : datetime) :
  datetime_ymd y m d = Ok t -> calendar_date t.
Proof.
  unfold datetime_ymd, calendar_date.
  destruct (_ && _) eqn:H; [|done]. intros [= <-]. simpl.
  repeat (apply andb_prop in H as [H ?]).
  repeat match goal with H : (_ <=? _)%N = true |- _ => apply N.leb_le in H end.
  repeat split; done.
Qed.

Lemma link_date_calendar (link : Anchor) (t : datetime) :
  link_date link = Some (Ok t) -> calendar_date t.
Proof.
  unfold link_date. destruct (contains _ _); [|done].
  destruct (a_next_span link); [|done]. destruct (strip _); [done|].
  destruct (search_date _) as [[[d m] y]|]; [|done].
  intros [= H]. by apply datetime_ymd_calendar in H.
Qed.

(** X7. Every trade date returned is a date of the calendar, at midnight. *)
Theorem get_bulletin_urls_calendar_dates (session : network) :
  exists r, get_bulletin_urls session = Some r /\
    match r with
    | Ok data => Forall (fun e : entry => calendar_date e.2) data
    | Raise _ => True
    end.
Proof.
  destruct (pages_loop_inv session (S LIMIT_FILES) 1%N []) as [r [Hr _]];
    [cbn [length]; lia | done | cbn [length]; lia |].
  exists r. split; [done|].
  pose proof (pages_loop_from session (fun e : entry => calendar_date e.2)
                (S LIMIT_FILES) 1%N []) as H.
  unfold get_bulletin_urls in Hr. rewrite Hr in H. destruct r; [|done].
  apply H; [|done]. intros n links link d _ _ Hdate.
  by apply (link_date_calendar link).
Qed.

(** ** Spreadsheet Extractor, sheet by sheet *)

Lemma has_marker_true (row : list Cell) : marker_row row -> has_marker row = true.
Proof.
  intros [s [Hin Hs]]. unfold has_marker. apply existsb_exists.
  exists (CStr s). split; [by apply list_elem_of_In | by apply contains_spec].
Qed.

Lemma scan_rows_app (pre rest : Sheet) :
  marker_free_rows pre -> scan_rows (pre ++ rest) = scan_rows rest.
Proof.
  induction pre as [|row pre IH]; intros Hfree; [done|].
  cbn [app scan_rows]. rewrite has_marker_false.
  - apply IH. intros r s Hr. apply Hfree. by right.
  - intros s. apply Hfree. by left.
Qed.

Lemma scan_sheets_app (before rest : list Sheet) :
  marker_free before -> scan_sheets (before ++ rest) = scan_sheets rest.
Proof.
  induction before as [|sheet before IH]; intros Hfree; [done|].
  cbn [app scan_sheets]. rewrite scan_rows_none.
  - apply IH. intros sh row s Hsh. apply Hfree. by right.
  - intros row s. apply Hfree. by left.
Qed.

Lemma scan_sheets_first_marker (before : list Sheet) (above : Sheet)
    (marker : list Cell) (below : Sheet) (after : list Sheet) :
  marker_free before -> marker_free_rows above -> marker_row marker ->
  scan_sheets (before ++ (above ++ marker :: below) :: after)
  = (df_clean <- table_below below;; Ok (Some df_clean)).
Proof.
  intros Hbefore Habove Hmarker.
  rewrite scan_sheets_app by done. cbn [scan_sheets].
  rewrite scan_rows_app by done. cbn [scan_rows].
  by rewrite has_marker_true.
Qed.

Lemma has_marker_spec (row : list Cell) : has_marker row = true <-> marker_row row.
Proof.
  split; [|apply has_marker_true].
  unfold has_marker. intros H. apply existsb_exists in H as [c [Hin Hc]].
  destruct c as [s| | | | | |]; try discriminate Hc.
  exists s. split; [by apply list_elem_of_In | by apply contains_spec].
Qed.

Lemma marker_free_rows_check (sheet : Sheet) :
  forallb (fun row => negb (has_marker row)) sheet = true -> marker_free_rows sheet.
Proof.
  intros H row s Hrow Hs Hsub.
  rewrite forallb_forall in H. apply list_elem_of_In, H in Hrow.
  rewrite has_marker_true in Hrow; [done|]. by exists s.
Qed.

Lemma marker_free_check (sheets : list Sheet) :
  forallb (forallb (fun row => negb (has_marker row))) sheets = true ->
  marker_free sheets.
Proof.
  intros H sheet row s Hsheet.
  rewrite forallb_forall in H. apply list_elem_of_In, H in Hsheet.
  by apply marker_free_rows_check.
Qed.



(** X9. When the first marker row is the last row of its sheet, there is
    no header row to take and [download_and_parse] raises [IndexError];
    it does not return [None]. *)
Theorem download_and_parse_marker_on_last_row (session : network) (url : str)
    (resp : Response) (before : list Sheet) (above : Sheet)
    (marker : list Cell) (after : list Sheet) :
  session url = Ok resp ->
  as_xls (body resp) = Some (before ++ (above ++ [marker]) :: after) ->
  marker_free before -> marker_free_rows above -> marker_row marker ->
  download_and_parse session url = Raise IndexError.
Proof.
  intros Hget Hxls Hbefore Habove Hmarker.
  unfold download_and_parse. rewrite Hget. cbn [bind]. rewrite Hxls.
  by rewrite scan_sheets_first_marker by done.
Qed.

Lemma download_and_parse_marker_on_last_row_witness :
  download_and_parse Cases.truncated_session RESULTS_URL = Raise IndexError.
Proof.
  apply (download_and_parse_marker_on_last_row Cases.truncated_session RESULTS_URL
           (MkResponse 200
              (MkBody [] (Some [[[Samples.text "Бюллетень"]; [Cases.marker_text]];
                                Cases.bulletin_sheet])))
           [] [[Samples.text "Бюллетень"]] [Cases.marker_text]
           [Cases.bulletin_sheet]).
  - reflexivity.
  - reflexivity.
  - apply marker_free_check. vm_compute. reflexivity.
  - apply marker_free_rows_check. vm_compute. reflexivity.
  - apply has_marker_spec. vm_compute. reflexivity.
Defined.

(** The column labels. *)

Lemma lstrip_head (s : str) (c : N) (rest : str) :
  lstrip s = c :: rest -> isspace c = false.
Proof.
  induction s as [|x s IH]; [done|]. cbn [lstrip].
  destruct (isspace x) eqn:Hx; [done|]. by intros [= <- _].
Qed.

Lemma lstrip_suffix (s : str) : exists pre, s = pre ++ lstrip s.
Proof.
  induction s as [|x s [pre IH]]; [by exists []|]. cbn [lstrip].
  destruct (isspace x).
  - exists (x :: pre). simpl. by rewrite <- IH.
  - by exists [].
Qed.

Lemma rstrip_prefix (s : str) : exists suf, s = rstrip s ++ suf.
Proof.
  unfold rstrip. destruct (lstrip_suffix (rev s)) as [pre H].
  exists (rev pre). rewrite <- rev_app_distr, <- H. by rewrite rev_involutive.
Qed.

Lemma rstrip_last (s : str) (init : str) (c : N) :
  rstrip s = init ++ [c] -> isspace c = false.
Proof.
  unfold rstrip. intros H. apply (f_equal (@rev N)) in H.
  rewrite rev_involutive, rev_app_distr in H. simpl in H.
  by apply lstrip_head in H.
Qed.

Lemma strip_tidy_ends (s : str) :
  (forall c rest, strip s = c :: rest -> isspace c = false) /\
  (forall init c, strip s = init ++ [c] -> isspace c = false).
Proof.
  unfold strip. split.
  - intros c rest H. destruct (rstrip_prefix (lstrip s)) as [suf Hsuf].
    rewrite H in Hsuf. by apply lstrip_head in Hsuf.
  - intros init c. apply rstrip_last.
Qed.

Lemma strip_elem (s : str) (c : N) : c ∈ strip s -> c ∈ s.
Proof.
  unfold strip. intros H.
  destruct (rstrip_prefix (lstrip s)) as [suf Hsuf].
  destruct (lstrip_suffix s) as [pre Hpre].
  rewrite Hpre, Hsuf. apply elem_of_app. right. apply elem_of_app. by left.
Qed.

Lemma replace_char_elem (old : N) (new : str) (s : str) (c : N) :
  c ∈ replace_char old new s -> c ∈ new \/ (c ∈ s /\ c <> old).
Proof.
  unfold replace_char. intros H.
  apply list_elem_of_In, in_flat_map in H as [x [Hx Hc]].
  destruct (N.eqb_spec x old) as [->|Hne].
  - left. by apply list_elem_of_In.
  - right. destruct Hc as [<-|[]]. split; [by apply list_elem_of_In | done].
Qed.

Lemma label_of_cell_tidy (c : Cell) : tidy (label_of_cell c).
Proof.
  unfold tidy, label_of_cell. split; [|apply strip_tidy_ends].
  intros H. apply strip_elem, replace_char_elem in H as [H|[_ H]]; [|done].
  apply list_elem_of_singleton in H. discriminate H.
Qed.

Lemma scan_rows_columns (sheet : Sheet) (df_clean : Frame) :
  scan_rows sheet = Some (Ok df_clean) ->
  exists header, columns df_clean = List.map label_of_cell header.
Proof.
  induction sheet as [|row below IH]; [done|]. cbn [scan_rows].
  destruct (has_marker row); [|done].
  destruct below as [|header body_rows]; [done|].
  intros [= <-]. by exists header.
Qed.

Lemma scan_sheets_columns (sheets : list Sheet) (df_clean : Frame) :
  scan_sheets sheets = Ok (Some df_clean) ->
  exists header, columns df_clean = List.map label_of_cell header.
Proof.
  induction sheets as [|sheet others IH]; [done|]. cbn [scan_sheets].
  destruct (scan_rows sheet) as [[f|e]|] eqn:Hrows; [| done | done].
  cbn [bind]. intros [= <-]. by apply (scan_rows_columns sheet).
Qed.

(** X10. The column labels of a table [download_and_parse] returns hold no
    newline and have no white space at either end. *)
Theorem download_and_parse_tidy_labels (session : network) (url : str)
    (df_clean : Frame) :
  download_and_parse session url = Ok (Some df_clean) ->
  Forall tidy (columns df_clean).
Proof.
  unfold download_and_parse. destruct (session url) as [resp|e]; [|done].
  cbn [bind]. destruct (as_xls (body resp)) as [sheets|]; [|done].
  intros H. apply scan_sheets_columns in H as [header ->].
  apply Forall_forall. intros l Hl.
  apply list_elem_of_In, in_map_iff in Hl as [c [<- _]]. apply label_of_cell_tidy.
Qed.

Lemma download_and_parse_tidy_labels_witness :
  Forall tidy (columns Cases.bulletin_frame).
Proof.
  apply (download_and_parse_tidy_labels Cases.bulletin_session RESULTS_URL
           Cases.bulletin_frame).
  vm_compute. reflexivity.
Defined.

(** The cells of the table. *)



(** ** Row Normalizer, continued *)



(** Thousands separators. *)

Lemma clean_comma (a b : str) :
  clean (CStr (a ++ 44%N :: b)) = clean (CStr (a ++ b)).
Proof.
  unfold clean, str_of_cell, replace_char.
  by rewrite !flat_map_app.
Qed.

Lemma strip_row_comma (r : Row) (col : str) (a b : str) :
  col ∈ [COL_COUNT; COL_VOLUME; COL_TOTAL] ->
  cell r col = CStr (a ++ 44%N :: b) ->
  strip_row (<[col := CStr (a ++ b)]> r) = strip_row r.
Proof.
  intros Hcol Hcell.
  assert (Hclean : clean (cell r col) = clean (CStr (a ++ b)))
    by (by rewrite Hcell, clean_comma).
  unfold strip_row, upd.
  repeat (apply elem_of_cons in Hcol as [->|Hcol]);
    [| | | by apply elem_of_nil in Hcol];
    cell_simpl; rewrite <- ?Hclean.
  - by rewrite insert_insert_eq.
  - rewrite (insert_insert_ne _ COL_COUNT COL_VOLUME) by label_neq.
    by rewrite insert_insert_eq.
  - rewrite (insert_insert_ne _ COL_COUNT COL_TOTAL) by label_neq.
    rewrite (insert_insert_ne _ COL_VOLUME COL_TOTAL) by label_neq.
    by rewrite insert_insert_eq.
Qed.

Lemma comma_variant_strip (r r' : Row) : comma_variant r r' -> strip_row r' = strip_row r.
Proof.
  intros [->|[col [a [b [Hcol [Hcell ->]]]]]]; [done|]. by apply strip_row_comma.
Qed.

Lemma stripped_rows_columns (f : Frame) :
  stripped f
  = MkFrame (columns (stripped (MkFrame (columns f) []))) (List.map strip_row (rows f)).
Proof. unfold stripped, col_apply. cbn [columns rows]. by rewrite !List.map_map. Qed.

Lemma comma_variant_stripped (f f' : Frame) :
  columns f' = columns f -> Forall2 comma_variant (rows f) (rows f') ->
  stripped f' = stripped f.
Proof.
  intros Hcols Hrows.
  rewrite (stripped_rows_columns f), (stripped_rows_columns f'), Hcols. f_equal.
  induction Hrows as [|r r' rs rs' Hr _ IH]; [done|].
  simpl. by rewrite IH, (comma_variant_strip r r').
Qed.

(** X13. A comma in the text of a count, a volume or a total never changes
    the outcome: two grids that differ by such commas give the same
    result, and when that is a batch, the same batch. *)
Theorem process_dataframe_ignores_commas (pd : Library) (df df' : loc)
    (trade_date now : datetime) (h : Store) (f f' : Frame) :
  h !! df = Some f -> h !! df' = Some f' ->
  columns f' = columns f ->
  Forall2 comma_variant (rows f) (rows f') ->
  (process_dataframe pd df trade_date now h).1
  = (process_dataframe pd df' trade_date now h).1 /\
  forall out,
    (process_dataframe pd df trade_date now h).1 = Ok (Some out) ->
    (process_dataframe pd df trade_date now h).2 !! out
    = (process_dataframe pd df' trade_date now h).2 !! out.
Proof.
  intros Hdf Hdf' Hcols Hrows.
  pose proof (comma_variant_stripped f f' Hcols Hrows) as Hstripped.
  assert (Hinc : incomplete f' = incomplete f) by (unfold incomplete; by rewrite Hcols).
  assert (Hcounts : count_column pd f' = count_column pd f)
    by (unfold count_column; by rewrite Hstripped).
  assert (Hcoerced : forall counts, coerced pd counts f' = coerced pd counts f)
    by (intros counts; unfold coerced, counted; by rewrite Hstripped).
  destruct (incomplete f) eqn:Hf.
  - rewrite (process_dataframe_absent pd df trade_date now h f Hdf Hf).
    rewrite (process_dataframe_absent pd df' trade_date now h f' Hdf')
      by (by rewrite Hinc).
    done.
  - rewrite (process_dataframe_run pd df trade_date now h f Hdf Hf).
    rewrite (process_dataframe_run pd df' trade_date now h f' Hdf')
      by (by rewrite Hinc).
    rewrite Hcounts. destruct (count_column pd f) as [counts|e]; [|done].
    by rewrite Hcoerced.
Qed.

Lemma process_dataframe_ignores_commas_witness :
  (process_dataframe Samples.pandas 0 Samples.may_day Samples.clock
     [Samples.a100_frame; Cases.a100_frame_one_comma]).1
  = (process_dataframe Samples.pandas 1 Samples.may_day Samples.clock
       [Samples.a100_frame; Cases.a100_frame_one_comma]).1 /\
  forall out,
    (process_dataframe Samples.pandas 0 Samples.may_day Samples.clock
       [Samples.a100_frame; Cases.a100_frame_one_comma]).1 = Ok (Some out) ->
    (process_dataframe Samples.pandas 0 Samples.may_day Samples.clock
       [Samples.a100_frame; Cases.a100_frame_one_comma]).2 !! out
    = (process_dataframe Samples.pandas 1 Samples.may_day Samples.clock
         [Samples.a100_frame; Cases.a100_frame_one_comma]).2 !! out.
Proof.
  apply (process_dataframe_ignores_commas Samples.pandas 0 1 Samples.may_day
           Samples.clock [Samples.a100_frame; Cases.a100_frame_one_comma]
           Samples.a100_frame Cases.a100_frame_one_comma).
  - reflexivity.
  - reflexivity.
  - reflexivity.
  - constructor.
    + right. exists COL_TOTAL, (utf8 "1"), (utf8 "200,000").
      split; [in_labels|]. split; [vm_compute; reflexivity | reflexivity].
    + repeat constructor.
Defined.

(** Counts that are not finite. *)

Lemma astype_int_infinite (pd : Library) (col : column) :
  has_infinite col -> astype_int pd (fillna0 col) = Raise IntCastingNaNError.
Proof.
  intros (values & neg & -> & Hin). cbn [fillna0 astype_int].
  replace (forallb isfinite _) with false; [done|].
  symmetry. apply not_true_is_false. intros Hall.
  rewrite forallb_forall in Hall.
  specialize (Hall (Infinite neg)). cbn [isfinite] in Hall.
  apply diff_false_true, Hall, in_map_iff.
  exists (Infinite neg). split; [done | by apply list_elem_of_In].
Qed.

(** X20. When the coercion of the count column gives a float column with
    an infinite value, [process_dataframe] raises [IntCastingNaNError]:
    no batch is returned, whatever the other rows hold, and the grid
    given is as it was. *)
Theorem process_dataframe_infinite_count (pd : Library) (df : loc)
    (trade_date now : datetime) (h : Store) (f : Frame) :
  h !! df = Some f ->
  Forall (fun c => c ∈ columns f) expected_columns ->
  NoDup (columns f) ->
  has_infinite (to_numeric pd (column_of (stripped f) COL_COUNT)) ->
  (process_dataframe pd df trade_date now h).1 = Raise IntCastingNaNError /\
  (process_dataframe pd df trade_date now h).2 !! df = Some f.
Proof.
  intros Hdf Hexp _ Hinf.
  rewrite (process_dataframe_run pd df trade_date now h f Hdf (expected_false f Hexp)).
  unfold count_column. rewrite (astype_int_infinite pd _ Hinf). split; [done|].
  cbn [snd]. rewrite lookup_app_l; [done|]. by apply lookup_lt_Some in Hdf.
Qed.

Lemma process_dataframe_infinite_count_witness :
  (process_dataframe Samples.pandas 0 Samples.may_day Samples.clock
     [Samples.infinite_count_frame]).1 = Raise IntCastingNaNError /\
  (process_dataframe Samples.pandas 0 Samples.may_day Samples.clock
     [Samples.infinite_count_frame]).2 !! 0 = Some Samples.infinite_count_frame.
Proof.
  apply (process_dataframe_infinite_count Samples.pandas 0 Samples.may_day
           Samples.clock [Samples.infinite_count_frame] Samples.infinite_count_frame).
  - reflexivity.
  - has_expected.
  - apply (bool_decide_unpack _). vm_compute. exact I.
  - exists [Infinite false], false. split; [vm_compute; reflexivity | by left].
Defined.

(** Which rows are left out. *)

Lemma notna_false (c : Cell) : notna c = false <-> c = CNaN.
Proof. destruct c; simpl; split; done. Qed.

Lemma keep_numbered_spec (x : Row * (Z * (Cell * Cell))) :
  keep_row (with_numbers x.1 (CInt x.2.1) x.2.2.1 x.2.2.2) = false <-> excluded x.
Proof.
  rewrite keep_row_with_numbers. unfold excluded.
  rewrite <- contains_spec, <- !notna_false. cbn [gt0].
  destruct (Z.ltb_spec 0 x.2.1); destruct (notna x.2.2.1); destruct (notna x.2.2.2);
    destruct (contains SUMMARY _); cbn [andb negb]; split; auto; try tauto;
    intros [?|[?|[?|?]]]; try done; lia.
Qed.

Lemma made_from_numbered (trade_date now : datetime) (x : Row * (Z * (Cell * Cell))) :
  made_from x (derive_row trade_date now (with_numbers x.1 (CInt x.2.1) x.2.2.1 x.2.2.2)).
Proof.
  unfold made_from.
  rewrite derive_row_id, derive_row_name, derive_row_basis, derive_row_count,
    derive_row_volume, derive_row_total.
  by rewrite with_numbers_code, with_numbers_name, with_numbers_basis,
    with_numbers_count, with_numbers_volume, with_numbers_total.
Qed.

Lemma Forall2_map_self {X Y : Type} (R : X -> Y -> Prop) (f : X -> Y) (l : list X) :
  (forall x, R x (f x)) -> Forall2 R l (List.map f l).
Proof. intros H. induction l; simpl; constructor; auto. Qed.

Lemma pandas_keeps_length : keeps_length Samples.pandas.
Proof.
  intros cells. cbn [to_numeric Samples.pandas]. unfold Samples.column_of_readings.
  destruct (forallb _ _); [|destruct (forallb _ _)]; cbn [column_length];
    by rewrite !length_map.
Qed.

(** X21. The rows of a batch are made, in order, from exactly the rows of
    the grid that are not excluded, each taken with the count, the volume
    and the total that the coercion of its column gives it: a row is left
    out if and only if its count is at most 0, its volume or its total is
    missing, or its instrument code contains the summary word. *)
Theorem process_dataframe_excludes_exactly (pd : Library) (df : loc)
    (trade_date now : datetime) (h h' : Store) (out : loc) (f fo : Frame) :
  keeps_length pd ->
  h !! df = Some f ->
  process_dataframe pd df trade_date now h = (Ok (Some out), h') ->
  h' !! out = Some fo ->
  exists (counts : list Z) (keep : Row * (Z * (Cell * Cell)) -> bool),
    count_column pd f = Ok counts /\
    length (numbered pd counts f) = length (rows f) /\
    (forall x, keep x = false <-> excluded x) /\
    Forall2 made_from (List.filter keep (numbered pd counts f)) (rows fo).
Proof.
  intros Hpd Hdf Hrun Hout.
  apply process_dataframe_returns in Hrun
    as (f' & counts & Hdf' & Hinc & Hcounts & Hbatch).
  rewrite Hdf in Hdf'. injection Hdf' as <-.
  rewrite Hbatch in Hout. injection Hout as <-.
  pose proof (count_column_length pd f counts Hpd Hcounts) as Hlen.
  assert (Hcol : forall c,
            length (cells_of (to_numeric pd (column_of (stripped f) c)))
            = length (rows f)).
  { intros c. rewrite cells_of_length, Hpd. unfold column_of.
    by rewrite rows_stripped, !length_map. }
  exists counts, (fun x => keep_row (with_numbers x.1 (CInt x.2.1) x.2.2.1 x.2.2.2)).
  split; [done|]. split; [|split].
  - unfold numbered. rewrite !length_zip, !Hcol, Hlen. lia.
  - apply keep_numbered_spec.
  - rewrite rows_batch_coerced by done.
    rewrite rows_coerced by (rewrite ?Hcol; lia).
    rewrite filter_map_comm, List.map_map.
    apply Forall2_map_self. intros x. apply made_from_numbered.
Qed.

Lemma process_dataframe_excludes_exactly_witness :
  exists (counts : list Z) (keep : Row * (Z * (Cell * Cell)) -> bool),
    count_column Samples.pandas Samples.a100_frame = Ok counts /\
    length (numbered Samples.pandas counts Samples.a100_frame)
    = length (rows Samples.a100_frame) /\
    (forall x, keep x = false <-> excluded x) /\
    Forall2 made_from
      (List.filter keep (numbered Samples.pandas counts Samples.a100_frame))
      (rows (batch Samples.may_day Samples.clock
               (coerced Samples.pandas [3; 0; 3]%Z Samples.a100_frame))).
Proof.
  destruct a100_run as [h' [Hrun Hout]].
  exact (process_dataframe_excludes_exactly Samples.pandas 0 Samples.may_day Samples.clock
           [Samples.a100_frame] h' 7 Samples.a100_frame _
           pandas_keeps_length eq_refl Hrun Hout).
Defined.

(** ** Persister, continued *)

Lemma mapped_attribute (c : str) : c ∈ mapped_columns -> c ∈ class_attributes.
Proof. intros H. unfold class_attributes. apply elem_of_cons. right. exact H. Qed.

Lemma SpimexTradingResult_ok (labels : list str) (row : Row) :
  Forall (fun c => c ∈ mapped_columns) labels ->
  SpimexTradingResult (to_dict labels row) = Ok (record_of labels row).
Proof.
  intros Hall. unfold SpimexTradingResult, record_of.
  replace (forallb _ _) with true; [done|].
  symmetry. apply forallb_forall. intros [c v] Hin.
  apply in_map_iff in Hin as [c' [[= <- <-] Hin]].
  apply bool_decide_eq_true, mapped_attribute.
  rewrite Forall_forall in Hall. by apply Hall, list_elem_of_In.
Qed.

Lemma output_columns_mapped : Forall (fun c => c ∈ mapped_columns) output_columns.
Proof. repeat constructor; in_labels. Qed.

(** A row that holds exactly the columns of its frame is its own record. *)
Lemma record_of_project (labels : list str) (r : Row) :
  record_of labels (project_row labels r) = project_row labels r.
Proof.
  unfold record_of, to_dict, project_row at 2. f_equal.
  apply map_ext_in. intros c Hc. f_equal.
  by apply cell_project, list_elem_of_In.
Qed.

Lemma batch_records (trade_date now : datetime) (g : Frame) :
  List.map (record_of (columns (batch trade_date now g)))
    (rows (batch trade_date now g))
  = rows (batch trade_date now g).
Proof.
  unfold batch, frame_project. cbn [columns rows]. rewrite List.map_map.
  apply map_ext. intros r. apply record_of_project.
Qed.

Section PersisterState.

Variable backend : Backend.

Lemma add_rows_state (labels : list str) (rows : list Row) :
  Forall (fun c => c ∈ mapped_columns) labels ->
  forall s : Session,
  exists (flags : list bool) (s' : Session),
    add_rows backend labels rows s = (Ok tt, s') /\
    length flags = length rows /\
    trace s'
    = trace s ++ concat (zip_with attempt (List.map (record_of labels) rows) flags) /\
    committed s' = committed s /\
    pending s' = staged (List.map (record_of labels) rows) flags (pending s).
Proof.
  intros Hlabels. induction rows as [|row others IH]; intros s.
  - exists [], s. simpl. by rewrite app_nil_r.
  - cbn [add_rows List.map]. rewrite SpimexTradingResult_ok by done.
    unfold session_add.
    destruct (add_conflicts backend (record_of labels row) s) eqn:Hc.
    + unfold session_rollback.
      destruct (IH (MkSession [] (committed s)
                      ((trace s ++ [EvAdd (record_of labels row) true])
                       ++ [EvRollback])))
        as (flags & s' & Hrun & Hlen & Htrace & Hcomm & Hpend).
      exists (true :: flags), s'. cbn [trace committed pending] in *.
      repeat split; [done | simpl; lia | | done | done].
      rewrite Htrace. simpl. by rewrite <- !app_assoc.
    + destruct (IH (MkSession (pending s ++ [record_of labels row]) (committed s)
                      (trace s ++ [EvAdd (record_of labels row) false])))
        as (flags & s' & Hrun & Hlen & Htrace & Hcomm & Hpend).
      exists (false :: flags), s'. cbn [trace committed pending] in *.
      repeat split; [done | simpl; lia | | done | done].
      rewrite Htrace. simpl. by rewrite <- !app_assoc.
Qed.

Lemma add_rows_committed (labels : list str) (rows : list Row) :
  forall s : Session, committed (add_rows backend labels rows s).2 = committed s.
Proof.
  induction rows as [|row others IH]; intros s; [done|].
  cbn [add_rows]. destruct (SpimexTradingResult _) as [record|e]; [|done].
  unfold session_add, session_rollback.
  destruct (add_conflicts backend record s); by rewrite IH.
Qed.

Lemma add_rows_clean (labels : list str) (rows : list Row) :
  Forall (fun c => c ∈ mapped_columns) labels ->
  (forall r s, add_conflicts backend r s = false) ->
  forall s : Session,
    add_rows backend labels rows s
    = (Ok tt,
       MkSession (pending s ++ List.map (record_of labels) rows) (committed s)
         (trace s ++ List.map (fun r => EvAdd (record_of labels r) false) rows)).
Proof.
  intros Hlabels Hclean. induction rows as [|row others IH]; intros s.
  - simpl. rewrite !app_nil_r. by destruct s.
  - cbn [add_rows List.map]. rewrite SpimexTradingResult_ok by done.
    unfold session_add. rewrite Hclean, IH.
    cbn [pending committed trace]. by rewrite <- !app_assoc.
Qed.

Lemma save_to_db_clean (df : Frame) (table : list Row) :
  Forall (fun c => c ∈ mapped_columns) (columns df) ->
  (forall r s, add_conflicts backend r s = false) ->
  (forall s, flush_conflicts backend s = false) ->
  save_to_db backend df table
  = (Ok tt,
     MkSession [] (table ++ List.map (record_of (columns df)) (rows df))
       (List.map (fun r => EvAdd (record_of (columns df) r) false) (rows df)
        ++ [EvCommit false])).
Proof.
  intros Hlabels Hadd Hflush. unfold save_to_db. rewrite add_rows_clean by done.
  unfold session_commit. by rewrite Hflush.
Qed.

Lemma save_to_db_failed (df : Frame) (table : list Row) (e : exn) :
  (save_to_db backend df table).1 = Raise e ->
  committed (save_to_db backend df table).2 = table.
Proof.
  unfold save_to_db.
  pose proof (add_rows_committed (columns df) (rows df) (MkSession [] table []))
    as Hcomm.
  destruct (add_rows backend (columns df) (rows df) (MkSession [] table []))
    as [[[]|e'] s]; cbn [snd committed] in *; [|done].
  unfold session_commit. by destruct (flush_conflicts backend s).
Qed.

End PersisterState.

(** X15. For a frame whose labels are mapped columns, every row is made
    a record and attempted, in order, a rollback follows each conflict at
    staging, and one commit ends the calls. What the commit writes is the
    pending unit of work, that is the records staged since the last
    conflict; a commit that fails leaves the table as it was. *)
Theorem save_to_db_commits_what_is_staged (backend : Backend) (df : Frame)
    (table : list Row) :
  Forall (fun c => c ∈ mapped_columns) (columns df) ->
  exists (flags : list bool) (failed : bool),
    length flags = length (rows df) /\
    trace (save_to_db backend df table).2
    = concat (zip_with attempt (List.map (record_of (columns df)) (rows df)) flags)
      ++ [EvCommit failed] /\
    committed (save_to_db backend df table).2
    = (if failed then table
       else table ++ staged (List.map (record_of (columns df)) (rows df)) flags []).
Proof.
  intros Hlabels. unfold save_to_db.
  destruct (add_rows_state backend (columns df) (rows df) Hlabels (MkSession [] table []))
    as (flags & s & Hrun & Hlen & Htrace & Hcomm & Hpend).
  rewrite Hrun. unfold session_commit. cbn [trace committed pending] in *.
  exists flags, (flush_conflicts backend s).
  destruct (flush_conflicts backend s); cbn [snd trace committed];
    by rewrite Htrace, Hcomm, ?Hpend.
Qed.

Lemma save_to_db_commits_what_is_staged_witness :
  exists (flags : list bool) (failed : bool),
    length flags = length (rows Samples.repeated_id_frame) /\
    trace (save_to_db Samples.unique_id_backend Samples.repeated_id_frame []).2
    = concat (zip_with attempt
                (List.map (record_of (columns Samples.repeated_id_frame))
                   (rows Samples.repeated_id_frame)) flags)
      ++ [EvCommit failed] /\
    committed (save_to_db Samples.unique_id_backend Samples.repeated_id_frame []).2
    = (if failed then []
       else [] ++ staged (List.map (record_of (columns Samples.repeated_id_frame))
                            (rows Samples.repeated_id_frame)) flags []).
Proof.
  apply (save_to_db_commits_what_is_staged Samples.unique_id_backend
           Samples.repeated_id_frame []).
  repeat constructor; in_labels.
Defined.

(** X16. With a store that signals no conflict, [save_to_db] on a frame
    whose labels are mapped columns returns normally and the table grows
    by the records of its rows, in order. *)
Theorem save_to_db_without_conflict (backend : Backend) (df : Frame)
    (table : list Row) :
  Forall (fun c => c ∈ mapped_columns) (columns df) ->
  (forall r s, add_conflicts backend r s = false) ->
  (forall s, flush_conflicts backend s = false) ->
  (save_to_db backend df table).1 = Ok tt /\
  committed (save_to_db backend df table).2
  = table ++ List.map (record_of (columns df)) (rows df) /\
  pending (save_to_db backend df table).2 = [].
Proof.
  intros Hlabels Hadd Hflush. by rewrite save_to_db_clean.
Qed.

Lemma save_to_db_without_conflict_witness :
  (save_to_db Cases.quiet_backend Samples.repeated_id_frame []).1 = Ok tt /\
  committed (save_to_db Cases.quiet_backend Samples.repeated_id_frame []).2
  = [] ++ List.map (record_of (columns Samples.repeated_id_frame))
            (rows Samples.repeated_id_frame) /\
  pending (save_to_db Cases.quiet_backend Samples.repeated_id_frame []).2 = [].
Proof.
  apply (save_to_db_without_conflict Cases.quiet_backend Samples.repeated_id_frame []).
  - repeat constructor; in_labels.
  - reflexivity.
  - reflexivity.
Defined.

(** ** Orchestrator *)

Lemma gather_raises {A : Type} (tasks : list (result A)) (e : exn) :
  Raise e ∈ tasks -> exists e', gather tasks = Raise e'.
Proof.
  induction tasks as [|task others IH]; intros Hin; [by apply elem_of_nil in Hin|].
  cbn [gather]. destruct task as [a|e0]; [|by exists e0].
  apply elem_of_cons in Hin as [Hin|Hin]; [done|].
  destruct (IH Hin) as [e' ->]. by exists e'.
Qed.

Lemma gather_results {A : Type} (tasks : list (result A)) (results : list A) :
  tasks = List.map Ok results -> gather tasks = Ok results.
Proof.
  intros ->. induction results as [|a results IH]; [done|].
  cbn [List.map gather]. by rewrite IH.
Qed.

(** X17. When one extraction raises, [main] raises with the table untouched:
    no file is normalized or persisted unless every extraction returned. *)
Theorem main_needs_every_extraction (pd : Library) (backend : Backend)
    (session : network) (clock : nat -> datetime) (table : list Row)
    (urls : list entry) (u : entry) (e : exn) :
  get_bulletin_urls session = Some (Ok urls) ->
  u ∈ urls -> download_and_parse session u.1 = Raise e ->
  exists e', main pd backend session clock table = Some (Raise e', table).
Proof.
  intros Hurls Hu Hraise. unfold main. rewrite Hurls. cbv zeta.
  destruct (gather_raises
              (List.map (fun u : entry => download_and_parse session u.1) urls) e)
    as [e' ->]; [|by exists e'].
  rewrite <- Hraise. apply list_elem_of_In.
  apply (in_map (fun u : entry => download_and_parse session u.1) urls u).
  by apply list_elem_of_In.
Qed.

Section PersistFiles.

Variables (pd : Library) (backend : Backend) (clock : nat -> datetime).

(** One file, by what [normalize] makes of its grid. *)
Lemma persist_file_normalize (now date : datetime) (f : Frame) (frames : Store)
    (table : list Row) :
  exists frames',
    persist_file pd backend now date (Some f) frames table
    = match normalize pd date now f with
      | Ok (Some fo) =>
          ((save_to_db backend fo table).1,
           (frames', committed (save_to_db backend fo table).2))
      | Ok None => (Ok tt, (frames', table))
      | Raise e => (Raise e, (frames', table))
      end.
Proof.
  cbn [persist_file].
  pose proof (process_dataframe_normalize pd (length frames) date now
                (frames ++ [f]) f (lookup_snoc frames f)) as Hrun.
  destruct (normalize pd date now f) as [[fo|]|e].
  - destruct Hrun as (out & frames' & -> & ->). exists frames'.
    by destruct (save_to_db backend fo table).
  - rewrite Hrun. by eexists.
  - destruct Hrun as [frames' ->]. by exists frames'.
Qed.

Lemma persist_file_passed_over (now date : datetime) (u : entry)
    (df : option Frame) (frames : Store) (table : list Row) :
  passed_over (u, df) ->
  exists frames',
    persist_file pd backend now date df frames table = (Ok tt, (frames', table)).
Proof.
  unfold passed_over. cbn [snd]. destruct df as [f|]; [|by exists frames].
  intros Hmiss.
  destruct (persist_file_normalize now date f frames table) as [frames' ->].
  unfold normalize. rewrite Hmiss. by exists frames'.
Qed.

Lemma persist_files_passed_over (files : list (entry * option Frame)) :
  forall (i : nat) (frames : Store) (table : list Row),
    Forall passed_over files ->
    exists frames',
      persist_files pd backend clock i files frames table = (Ok tt, (frames', table)).
Proof.
  induction files as [|[[url date] df] files IH]; intros i frames table Hall.
  - by exists frames.
  - apply Forall_cons in Hall as [Hfile Hall]. cbn [persist_files].
    destruct (persist_file_passed_over (clock i) date (url, date) df frames table Hfile)
      as [frames1 ->].
    by apply IH.
Qed.

Lemma persist_files_clean (files : list (entry * option Frame)) :
  (forall r s, add_conflicts backend r s = false) ->
  (forall s, flush_conflicts backend s = false) ->
  forall (i : nat) (frames : Store) (table : list Row),
    Forall (countable pd) files ->
    exists frames',
      persist_files pd backend clock i files frames table
      = (Ok tt, (frames', table ++ persisted pd clock i files)).
Proof.
  intros Hadd Hflush.
  induction files as [|[[url date] df] files IH]; intros i frames table Hall.
  - exists frames. simpl. by rewrite app_nil_r.
  - apply Forall_cons in Hall as [Hfile Hall].
    cbn [persist_files persisted]. unfold file_batch.
    destruct df as [f|].
    + destruct (persist_file_normalize (clock i) date f frames table) as [frames1 ->].
      unfold countable in Hfile. cbn [snd] in Hfile. unfold normalize.
      destruct Hfile as [Hmiss | [_ [counts Hcounts]]].
      * rewrite Hmiss. destruct (IH (S i) frames1 table Hall) as [frames' ->].
        by exists frames'.
      * destruct (incomplete f).
        { destruct (IH (S i) frames1 table Hall) as [frames' ->]. by exists frames'. }
        rewrite Hcounts. cbn [bind].
        rewrite save_to_db_clean by (done || apply output_columns_mapped).
        cbn [fst snd committed]. rewrite batch_records.
        destruct (IH (S i) frames1
                    (table ++ rows (batch date (clock i) (coerced pd counts f))) Hall)
          as [frames' ->].
        exists frames'. by rewrite <- app_assoc.
    + cbn [persist_file]. destruct (IH (S i) frames table Hall) as [frames' ->].
      by exists frames'.
Qed.

Lemma persist_files_stops (skipped : list (entry * option Frame)) (u : entry)
    (f fo : Frame) (others : list (entry * option Frame)) (frames : Store)
    (table : list Row) (e : exn) :
  Forall passed_over skipped ->
  normalize pd u.2 (clock (length skipped)) f = Ok (Some fo) ->
  (save_to_db backend fo table).1 = Raise e ->
  exists frames',
    persist_files pd backend clock 0 (skipped ++ (u, Some f) :: others) frames table
    = (Raise e, (frames', table)).
Proof.
  intros Hskipped Hnorm Hsave.
  assert (Hgen : forall i frames0,
            normalize pd u.2 (clock (i + length skipped)) f = Ok (Some fo) ->
            exists frames',
              persist_files pd backend clock i (skipped ++ (u, Some f) :: others)
                frames0 table
              = (Raise e, (frames', table))).
  { clear Hnorm frames.
    induction skipped as [|[[url date] df] skipped IH]; intros i frames Hnorm.
    - destruct u as [url date]. cbn [app persist_files].
      destruct (persist_file_normalize (clock i) date f frames table) as [frames1 ->].
      cbn [length] in Hnorm. rewrite Nat.add_0_r in Hnorm. cbn [snd] in Hnorm.
      rewrite Hnorm, Hsave. exists frames1.
      by rewrite (save_to_db_failed backend _ table e Hsave).
    - apply Forall_cons in Hskipped as [Hfile Hskipped].
      cbn [app persist_files].
      destruct (persist_file_passed_over (clock i) date (url, date) df frames table
                  Hfile) as [frames1 ->].
      apply (IH Hskipped).
      cbn [length] in Hnorm. rewrite Nat.add_succ_r in Hnorm. exact Hnorm. }
  by apply Hgen.
Qed.

End PersistFiles.

(** X18. With a store that signals no conflict, a run in which the Locator
    and every extraction return, and no file makes line 105 raise, adds to
    the table the batches of the files, in listing order; a file that was
    not extracted or lacks an expected column adds nothing. *)
Theorem main_persists_every_batch (pd : Library) (backend : Backend)
    (session : network) (clock : nat -> datetime) (table : list Row)
    (urls : list entry) (results : list (option Frame)) :
  (forall r s, add_conflicts backend r s = false) ->
  (forall s, flush_conflicts backend s = false) ->
  get_bulletin_urls session = Some (Ok urls) ->
  List.map (fun u : entry => download_and_parse session u.1) urls
  = List.map Ok results ->
  Forall (countable pd) (zip urls results) ->
  main pd backend session clock table
  = Some (Ok tt, table ++ persisted pd clock 0 (zip urls results)).
Proof.
  intros Hadd Hflush Hurls Hresults Hfiles. unfold main. rewrite Hurls. cbv zeta.
  rewrite (gather_results _ results Hresults).
  destruct (persist_files_clean pd backend clock (zip urls results) Hadd Hflush
              0 [] table Hfiles) as [frames' ->].
  done.
Qed.

(** X19. When the commit for a file fails, [main] raises that exception
    and the files after it are not processed. *)
Theorem main_stops_at_failed_commit (pd : Library) (backend : Backend)
    (session : network) (clock : nat -> datetime) (table : list Row)
    (urls : list entry) (results : list (option Frame))
    (skipped : list (entry * option Frame)) (u : entry) (f fo : Frame)
    (others : list (entry * option Frame)) (e : exn) :
  get_bulletin_urls session = Some (Ok urls) ->
  List.map (fun u : entry => download_and_parse session u.1) urls
  = List.map Ok results ->
  zip urls results = skipped ++ (u, Some f) :: others ->
  Forall passed_over skipped ->
  normalize pd u.2 (clock (length skipped)) f = Ok (Some fo) ->
  (save_to_db backend fo table).1 = Raise e ->
  main pd backend session clock table = Some (Raise e, table).
Proof.
  intros Hurls Hresults Hzip Hskipped Hnorm Hsave. unfold main.
  rewrite Hurls. cbv zeta. rewrite (gather_results _ results Hresults), Hzip.
  destruct (persist_files_stops pd backend clock skipped u f fo others [] table e)
    as [frames' ->]; done.
Qed.

Lemma main_needs_every_extraction_witness :
  exists e',
    main Samples.pandas Cases.quiet_backend Cases.broken_file_session
      Cases.every_hour []
    = Some (Raise e', []).
Proof.
  apply (main_needs_every_extraction Samples.pandas Cases.quiet_backend
           Cases.broken_file_session Cases.every_hour []
           Cases.two_files_urls
           (BASE_URL ++ utf8 "/b.xls", Datetime 2024 4 24 0 0 0 0)
           ClientConnectionError).
  - vm_compute. reflexivity.
  - right. left.
  - vm_compute. reflexivity.
Defined.

Lemma trade_frame_counts :
  count_column Samples.pandas Cases.trade_frame = Ok [3%Z].
Proof. vm_compute. reflexivity. Qed.

Lemma trade_frame_normalize (now : datetime) :
  normalize Samples.pandas (Datetime 2024 5 1 0 0 0 0) now Cases.trade_frame
  = Ok (Some (batch (Datetime 2024 5 1 0 0 0 0) now
                (coerced Samples.pandas [3%Z] Cases.trade_frame))).
Proof.
  unfold normalize.
  replace (incomplete Cases.trade_frame) with false by (vm_compute; reflexivity).
  by rewrite trade_frame_counts.
Qed.

Lemma main_persists_every_batch_witness :
  main Samples.pandas Cases.quiet_backend Cases.pipeline_session Cases.every_hour []
  = Some (Ok tt,
          [] ++ persisted Samples.pandas Cases.every_hour 0
                  (zip Cases.two_files_urls [Some Cases.trade_frame; None])).
Proof.
  apply (main_persists_every_batch Samples.pandas Cases.quiet_backend
           Cases.pipeline_session Cases.every_hour [] Cases.two_files_urls
           [Some Cases.trade_frame; None]).
  - reflexivity.
  - reflexivity.
  - vm_compute. reflexivity.
  - vm_compute. reflexivity.
  - unfold Cases.two_files_urls. cbn [zip zip_with].
    constructor; [|constructor; [exact I | constructor]].
    right. split.
    + split; [apply (bool_decide_unpack _); vm_compute; exact I|].
      repeat constructor; apply (bool_decide_unpack _); vm_compute; exact I.
    + exists [3%Z]. exact trade_frame_counts.
Defined.

Lemma main_stops_at_failed_commit_witness :
  main Samples.pandas Cases.refusing_backend Cases.pipeline_session
    Cases.every_hour []
  = Some (Raise IntegrityError, []).
Proof.
  apply (main_stops_at_failed_commit Samples.pandas Cases.refusing_backend
           Cases.pipeline_session Cases.every_hour [] Cases.two_files_urls
           [Some Cases.trade_frame; None] []
           (BASE_URL ++ utf8 "/a.xls", Datetime 2024 5 1 0 0 0 0)
           Cases.trade_frame
           (batch (Datetime 2024 5 1 0 0 0 0) (Cases.every_hour 0)
              (coerced Samples.pandas [3%Z] Cases.trade_frame))
           [((BASE_URL ++ utf8 "/b.xls", Datetime 2024 4 24 0 0 0 0), None)]).
  - vm_compute. reflexivity.
  - vm_compute. reflexivity.
  - reflexivity.
  - constructor.
  - apply trade_frame_normalize.
  - unfold save_to_db.
    rewrite add_rows_clean by (apply output_columns_mapped || reflexivity).
    reflexivity.
Defined.
